(** * Master-agent conformance harness: a shallow embedding

    The harness (pytest scenarios under [evals/] and the stand-alone probe
    [test_mcp.py]) is a client of a remote service.  Its functions are
    embedded as programs of a small effect monad whose operations are the
    calls the Python code makes to the outside: an HTTP request, a blocking
    sleep, a line printed on standard output, a fresh UUID, a run of the
    external evaluation framework.  A [world]
    interprets those operations; every statement below quantifies over all
    worlds, so nothing is assumed about the service under test. *)

From Stdlib Require Import ZArith List Bool Ascii String Lia.
From stdpp Require Import base option gmap strings pretty.

Import ListNotations.
Set Warnings "-register-all".
Local Open Scope Z_scope.
Local Open Scope string_scope.

(** ** Python values (the result of [resp.json()], and request payloads)

    JSON numbers are kept to the integers: every number the harness
    compares is a counter. A dict is the list of its items. *)

Inductive pyval : Type :=
| PNone
| PBool (b : bool)
| PInt (n : Z)
| PStr (s : string)
| PList (l : list pyval)
| PDict (items : list (string * pyval)).

(** ** Exceptions

    The classes the harness can meet: Python built-ins, the [httpx]
    hierarchy (the part under [HTTPError], and [InvalidURL] beside it), the
    [requests] base class and pytest's [Skipped]. *)

Inductive exc_class : Type :=
| BaseException_ | Exception_
| AssertionError | LookupError_ | KeyError | TypeError | AttributeError
| ValueError | JSONDecodeError
| HTTPError | RequestError | TransportError
| TimeoutException | ConnectTimeout | ReadTimeout | WriteTimeout | PoolTimeout
| NetworkError | ConnectError | ReadError | WriteError | CloseError
| ProtocolError | LocalProtocolError | RemoteProtocolError
| ProxyError | UnsupportedProtocol
| DecodingError | TooManyRedirects
| HTTPStatusError
| InvalidURL
| RequestsException
| Skipped.

Global Instance exc_class_eq_dec : EqDecision exc_class.
Proof. solve_decision. Defined.

(** The direct base class; [BaseException] has none. *)
Definition base_class (c : exc_class) : option exc_class :=
  match c with
  | BaseException_ => None
  | Exception_ | Skipped => Some BaseException_
  | AssertionError | LookupError_ | TypeError | AttributeError | ValueError
  | HTTPError | InvalidURL | RequestsException => Some Exception_
  | KeyError => Some LookupError_
  | JSONDecodeError => Some ValueError
  | RequestError | HTTPStatusError => Some HTTPError
  | TransportError | DecodingError | TooManyRedirects => Some RequestError
  | TimeoutException | NetworkError | ProtocolError
  | ProxyError | UnsupportedProtocol => Some TransportError
  | ConnectTimeout | ReadTimeout | WriteTimeout | PoolTimeout => Some TimeoutException
  | ConnectError | ReadError | WriteError | CloseError => Some NetworkError
  | LocalProtocolError | RemoteProtocolError => Some ProtocolError
  end.

(** [issubclass c target], walking up at most [fuel] base classes. *)
Fixpoint issubclass_fuel (fuel : nat) (c target : exc_class) : bool :=
  if decide (c = target) then true
  else match fuel with
       | O => false
       | S fuel' =>
           match base_class c with
           | Some b => issubclass_fuel fuel' b target
           | None => false
           end
       end.

(** The hierarchy is six levels deep. *)
Definition issubclass (c target : exc_class) : bool := issubclass_fuel 6 c target.

(** A raised exception: its class and [str(exc)]. *)
Record exn : Type := Exn { exn_class : exc_class; exn_str : string }.

(** [except (C1, C2, ...)] matches by [isinstance]. *)
Definition isinstance_any (e : exn) (classes : list exc_class) : bool :=
  existsb (issubclass (exn_class e)) classes.

(** ** HTTP requests and responses *)

Inductive http_method : Type := GET | POST.

Record request : Type := Request {
  req_method : http_method;
  req_base : option string;     (* the client's [base_url], when sent through a client *)
  req_url : string;             (* the URL or path given at the call *)
  req_json : option pyval;      (* the [json=] body *)
  req_headers : list (string * string);
  req_timeout : option Z        (* seconds; [None] when the call sets none *)
}.

Record response : Type := Response {
  status_code : Z;
  text : string;                (* the raw body *)
  json_body : option pyval      (* the body parsed; [None] when it is not JSON *)
}.

(** A call either returns a response or raises. *)
Inductive http_result : Type :=
| Answered (r : response)
| Failed_with (e : exn).

(** ** The effect monad *)

Inductive prog (A : Type) : Type :=
| Ret (a : A)
| Raise (e : exn)
| Http (rq : request) (k : http_result -> prog A)
| Sleep (seconds : Z) (k : prog A)
| Print (line : string) (k : prog A)
| Uuid4Hex (k : string -> prog A)
| Evaluate (agent_module dataset : string) (num_runs : Z) (k : option exn -> prog A).

Arguments Ret {A} a.
Arguments Raise {A} e.
Arguments Http {A} rq k.
Arguments Sleep {A} seconds k.
Arguments Print {A} line k.
Arguments Uuid4Hex {A} k.
Arguments Evaluate {A} agent_module dataset num_runs k.

Fixpoint bind {A B : Type} (p : prog A) (f : A -> prog B) : prog B :=
  match p with
  | Ret a => f a
  | Raise e => Raise e
  | Http rq k => Http rq (fun r => bind (k r) f)
  | Sleep n k => Sleep n (bind k f)
  | Print s k => Print s (bind k f)
  | Uuid4Hex k => Uuid4Hex (fun u => bind (k u) f)
  | Evaluate m d n k => Evaluate m d n (fun r => bind (k r) f)
  end.

(** [try: p except classes as exc: h exc]. *)
Fixpoint try_except {A : Type} (p : prog A) (classes : list exc_class)
    (h : exn -> prog A) : prog A :=
  match p with
  | Ret a => Ret a
  | Raise e => if isinstance_any e classes then h e else Raise e
  | Http rq k => Http rq (fun r => try_except (k r) classes h)
  | Sleep n k => Sleep n (try_except k classes h)
  | Print s k => Print s (try_except k classes h)
  | Uuid4Hex k => Uuid4Hex (fun u => try_except (k u) classes h)
  | Evaluate m d n k => Evaluate m d n (fun r => try_except (k r) classes h)
  end.

Declare Scope prog_scope.
Delimit Scope prog_scope with prog.
Notation "x <- c1 ;; c2" := (bind c1 (fun x => c2))
  (at level 100, c1 at next level, right associativity) : prog_scope.
Notation "c1 ;;; c2" := (bind c1 (fun _ => c2))
  (at level 100, c2 at level 200, right associativity) : prog_scope.
Local Open Scope prog_scope.

(** ** Worlds and traces *)

Inductive event : Type :=
| EvHttp (rq : request) (r : http_result)
| EvSleep (seconds : Z)
| EvPrint (line : string)
| EvUuid (hex : string)
| EvEvaluate (agent_module dataset : string) (num_runs : Z) (r : option exn).

Record world (S : Type) : Type := World {
  w_http : S -> request -> S * http_result;
  w_sleep : S -> Z -> S;
  w_uuid : S -> S * string;
  w_evaluate : S -> string -> string -> Z -> S * option exn
}.
Arguments World {S} _ _ _ _.
Arguments w_http {S} _ _ _.
Arguments w_sleep {S} _ _ _.
Arguments w_uuid {S} _ _.
Arguments w_evaluate {S} _ _ _ _ _.

(** What a program did: the final state of the world, the trace of its
    operations in order, and the value returned or the exception raised. *)
Record run_result (S A : Type) : Type := RunResult {
  final : S;
  trace : list event;
  result : A + exn
}.
Arguments RunResult {S A} _ _ _.
Arguments final {S A} _.
Arguments trace {S A} _.
Arguments result {S A} _.

Definition after {S A} (ev : event) (r : run_result S A) : run_result S A :=
  RunResult (final r) (ev :: trace r) (result r).

Fixpoint run {S A : Type} (w : world S) (p : prog A) (s : S) : run_result S A :=
  match p with
  | Ret a => RunResult s [] (inl a)
  | Raise e => RunResult s [] (inr e)
  | Http rq k =>
      let '(s', r) := w_http w s rq in
      after (EvHttp rq r) (run w (k r) s')
  | Sleep n k => after (EvSleep n) (run w k (w_sleep w s n))
  | Print line k => after (EvPrint line) (run w k s)
  | Uuid4Hex k =>
      let '(s', u) := w_uuid w s in
      after (EvUuid u) (run w (k u) s')
  | Evaluate m d n k =>
      let '(s', r) := w_evaluate w s m d n in
      after (EvEvaluate m d n r) (run w (k r) s')
  end.

(** ** Python operations the harness uses *)

Definition type_name (v : pyval) : string :=
  match v with
  | PNone => "NoneType"
  | PBool _ => "bool"
  | PInt _ => "int"
  | PStr _ => "str"
  | PList _ => "list"
  | PDict _ => "dict"
  end.

Definition raise_ {A : Type} (c : exc_class) (msg : string) : prog A :=
  Raise (Exn c msg).

(** [assert b] *)
Definition assert_ (b : bool) : prog unit :=
  if b then Ret tt else raise_ AssertionError "".

Fixpoint dict_lookup (key : string) (items : list (string * pyval)) : option pyval :=
  match items with
  | [] => None
  | (k, v) :: rest => if String.eqb k key then Some v else dict_lookup key rest
  end.

(** [v[key]] for a string key: only a dict can be indexed by a string. *)
Definition getitem (v : pyval) (key : string) : prog pyval :=
  match v with
  | PDict items =>
      match dict_lookup key items with
      | Some x => Ret x
      | None => raise_ KeyError ("'" ++ key ++ "'")
      end
  | PList _ => raise_ TypeError "list indices must be integers or slices, not str"
  | PStr _ => raise_ TypeError "string indices must be integers, not 'str'"
  | _ => raise_ TypeError ("'" ++ type_name v ++ "' object is not subscriptable")
  end.

(** [v.get(key, dflt)] *)
Definition dict_get (v : pyval) (key : string) (dflt : pyval) : prog pyval :=
  match v with
  | PDict items => Ret (default dflt (dict_lookup key items))
  | _ => raise_ AttributeError
           ("'" ++ type_name v ++ "' object has no attribute 'get'")
  end.

(** [s1 in s2] on strings. *)
Fixpoint is_infix (needle s : string) : bool :=
  String.prefix needle s ||
  match s with
  | EmptyString => false
  | String _ rest => is_infix needle rest
  end.

(** [key in v] for a string [key]: a key of a dict, an element of a list, a
    substring of a string. *)
Definition contains (key : string) (v : pyval) : prog bool :=
  match v with
  | PDict items =>
      Ret (match dict_lookup key items with Some _ => true | None => false end)
  | PList l =>
      Ret (existsb (fun x => match x with PStr s => String.eqb s key | _ => false end) l)
  | PStr s => Ret (is_infix key s)
  | _ => raise_ TypeError
           ("argument of type '" ++ type_name v ++ "' is not iterable")
  end.

(** [v is True] *)
Definition is_True (v : pyval) : bool :=
  match v with PBool true => true | _ => false end.

(** The integer behind a number; [bool] is a subclass of [int]. *)
Definition as_int (v : pyval) : option Z :=
  match v with
  | PInt n => Some n
  | PBool b => Some (Z.b2z b)
  | _ => None
  end.

(** [v >= n] and [v <= n] against an integer literal. *)
Definition ge (v : pyval) (n : Z) : prog bool :=
  match as_int v with
  | Some x => Ret (n <=? x)%Z
  | None => raise_ TypeError
      ("'>=' not supported between instances of '" ++ type_name v ++ "' and 'int'")
  end.

Definition le (v : pyval) (n : Z) : prog bool :=
  match as_int v with
  | Some x => Ret (x <=? n)%Z
  | None => raise_ TypeError
      ("'<=' not supported between instances of '" ++ type_name v ++ "' and 'int'")
  end.

(** [len(v)] *)
Definition len (v : pyval) : prog Z :=
  match v with
  | PStr s => Ret (Z.of_nat (String.length s))
  | PList l => Ret (Z.of_nat (length l))
  | PDict items => Ret (Z.of_nat (length items))
  | _ => raise_ TypeError ("object of type '" ++ type_name v ++ "' has no len()")
  end.

Fixpoint chars (s : string) : list pyval :=
  match s with
  | EmptyString => []
  | String c rest => PStr (String c EmptyString) :: chars rest
  end.

(** The items [for x in v] visits. *)
Definition iterate (v : pyval) : prog (list pyval) :=
  match v with
  | PList l => Ret l
  | PDict items => Ret (map (fun kv => PStr (fst kv)) items)
  | PStr s => Ret (chars s)
  | _ => raise_ TypeError ("'" ++ type_name v ++ "' object is not iterable")
  end.

(** Truth value, for [x or y]. *)
Definition truthy (v : pyval) : bool :=
  match v with
  | PNone => false
  | PBool b => b
  | PInt n => negb (n =? 0)%Z
  | PStr s => negb (String.eqb s "")
  | PList l => match l with [] => false | _ => true end
  | PDict items => match items with [] => false | _ => true end
  end.

(** [s.split(sep)] for a one-character separator. *)
Fixpoint split (sep : ascii) (s : string) : list string :=
  match s with
  | EmptyString => [""]
  | String c rest =>
      if Ascii.eqb c sep then "" :: split sep rest
      else match split sep rest with
           | [] => [String c ""]
           | piece :: pieces => String c piece :: pieces
           end
  end.

(** [c * n] *)
Fixpoint repeat_char (c : ascii) (n : nat) : string :=
  match n with
  | O => ""
  | S n' => String c (repeat_char c n')
  end.

Definition newline : string := String (ascii_of_nat 10) "".

(** [os.path.join(a, b)] on POSIX paths. *)
Definition path_join (a b : string) : string :=
  if String.prefix "/" b then b
  else if String.eqb a "" then b
  else if String.eqb (String.substring (String.length a - 1) 1 a) "/" then a ++ b
  else a ++ "/" ++ b.

(** The HTTP call: a response comes back, or the library's exception is
    raised in the caller. *)
Definition send (rq : request) : prog response :=
  Http rq (fun r =>
    match r with
    | Answered resp => Ret resp
    | Failed_with e => Raise e
    end).

(** [resp.json()] *)
Definition json (r : response) : prog pyval :=
  match json_body r with
  | Some v => Ret v
  | None => raise_ JSONDecodeError "Expecting value: line 1 column 1 (char 0)"
  end.

Definition sleep (seconds : Z) : prog unit := Sleep seconds (Ret tt).
Definition print (line : string) : prog unit := Print line (Ret tt).
Definition uuid4_hex : prog string := Uuid4Hex Ret.

(** Every request a program can send satisfies [P]; every value it can
    return satisfies [Q]. *)
Fixpoint sends_only {A : Type} (P : request -> Prop) (p : prog A) : Prop :=
  match p with
  | Ret _ | Raise _ => True
  | Http rq k => P rq /\ forall r, sends_only P (k r)
  | Sleep _ k | Print _ k => sends_only P k
  | Uuid4Hex k => forall u, sends_only P (k u)
  | Evaluate _ _ _ k => forall r, sends_only P (k r)
  end.

Fixpoint returns_only {A : Type} (Q : A -> Prop) (p : prog A) : Prop :=
  match p with
  | Ret a => Q a
  | Raise _ => True
  | Http _ k => forall r, returns_only Q (k r)
  | Sleep _ k | Print _ k => returns_only Q k
  | Uuid4Hex k => forall u, returns_only Q (k u)
  | Evaluate _ _ _ k => forall r, returns_only Q (k r)
  end.

Definition request_of (P : request -> Prop) (ev : event) : Prop :=
  match ev with
  | EvHttp rq _ => P rq
  | _ => True
  end.

(** ** pytest: outcomes and the session

    An exception in a test body fails the test; an exception while a
    fixture is set up is an error of the test; [pytest.skip] raises
    [Skipped] and skips it. *)

Inductive outcome : Type :=
| Passed
| Failed (e : exn)
| Errored (e : exn)
| SkippedWith (reason : string).

Definition is_skip (e : exn) : bool :=
  match exn_class e with Skipped => true | _ => false end.

Definition call_outcome (r : unit + exn) : outcome :=
  match r with
  | inl _ => Passed
  | inr e => if is_skip e then SkippedWith (exn_str e) else Failed e
  end.

Definition setup_outcome (e : exn) : outcome :=
  if is_skip e then SkippedWith (exn_str e) else Errored e.

(** [pytest.skip(reason)] *)
Definition pytest_skip {A : Type} (reason : string) : prog A := raise_ Skipped reason.

Record session_report (S : Type) : Type := SessionReport {
  outcomes : list (string * outcome);
  session_trace : list event;
  session_final : S
}.
Arguments SessionReport {S} _ _ _.
Arguments outcomes {S} _.
Arguments session_trace {S} _.
Arguments session_final {S} _.

(** Tests run one after the other against the same world. *)
Fixpoint run_tests {S : Type} (w : world S) (tests : list (string * prog unit)) (s : S)
  : session_report S :=
  match tests with
  | [] => SessionReport [] [] s
  | (name, body) :: rest =>
      let r := run w body s in
      let rep := run_tests w rest (final r) in
      SessionReport ((name, call_outcome (result r)) :: outcomes rep)
                    (trace r ++ session_trace rep)%list
                    (session_final rep)
  end.

(** A fixture declared [scope="session", autouse=True] is set up for the
    first test and its result, a value or the exception it raised, is kept
    for every later test of the session. *)
Definition run_session {S : Type} (w : world S) (gate : prog unit)
    (tests : list (string * prog unit)) (s : S) : session_report S :=
  match tests with
  | [] => SessionReport [] [] s
  | _ =>
      let g := run w gate s in
      match result g with
      | inl _ =>
          let rep := run_tests w tests (final g) in
          SessionReport (outcomes rep) (trace g ++ session_trace rep)%list
                        (session_final rep)
      | inr e =>
          SessionReport (map (fun t => (fst t, setup_outcome e)) tests)
                        (trace g) (final g)
      end
  end.

(** ** The harness *)

Section Harness.

Set Default Proof Using "Type".

(** [os.environ] when the modules are imported. *)
Variable environ : gmap string string.
(** [os.path.dirname(__file__)] of [evals/test_a2a_eval.py]. *)
Variable here : string.
(** [json.dumps(v, indent=2)]. *)
Variable json_dumps : pyval -> string.
(** [repr] of a list or a dict. *)
Variable repr_container : pyval -> string.
(** [str] of the [HTTPStatusError] that [raise_for_status] builds for a
    response to a request of the given URL. *)
Variable status_error_str : string -> response -> string.

(** [os.getenv(key, default)] *)
Definition getenv (key dflt : string) : string := default dflt (environ !! key).

(** What an f-string puts for [{v}]. *)
Definition format (v : pyval) : string :=
  match v with
  | PNone => "None"
  | PBool true => "True"
  | PBool false => "False"
  | PInt n => pretty n
  | PStr s => s
  | _ => repr_container v
  end.

(** *** evals/conftest.py *)

Definition API_URL : string := getenv "MASTER_AGENT_API_URL" "http://localhost:8080".
Definition A2A_URL : string := getenv "MASTER_AGENT_A2A_URL" "http://localhost:8084".

Definition api_url : string := API_URL.
Definition a2a_url : string := A2A_URL.

(** [httpx.get(url, timeout=t)] *)
Definition httpx_get (url : string) (t : Z) : prog response :=
  send (Request GET None url None [] (Some t)).

(** [Response.is_success] *)
Definition is_success (code : Z) : bool := (200 <=? code)%Z && (code <=? 299)%Z.

(** [resp.raise_for_status()] *)
Definition raise_for_status (url : string) (resp : response) : prog unit :=
  if is_success (status_code resp) then Ret tt
  else raise_ HTTPStatusError (status_error_str url resp).

Definition check_agent_health : prog unit :=
  try_except
    (resp <- httpx_get (API_URL ++ "/v0/agent/status") 5;;
     raise_for_status (API_URL ++ "/v0/agent/status") resp)
    [ConnectError; TimeoutException; HTTPStatusError]
    (fun exc =>
       pytest_skip ("Master agent not reachable at " ++ API_URL ++ ": " ++ exn_str exc)).

(** [httpx.Client(base_url=..., timeout=...)] *)
Record client : Type := Client { base_url : string; timeout : Z }.

Definition http_client : client := Client API_URL 30.

Definition client_post (c : client) (path : string) (body : pyval) : prog response :=
  send (Request POST (Some (base_url c)) path (Some body) [] (Some (timeout c))).

Definition client_get (c : client) (path : string) : prog response :=
  send (Request GET (Some (base_url c)) path None [] (Some (timeout c))).

(** *** evals/test_http_events.py *)

Definition PROCESS_WAIT_SECONDS : Z := 15.

Definition critical_event_payload (event_id : string) : pyval :=
  PDict [("source", PStr "k8s/pod/production/nginx-eval");
         ("type", PStr "pod-crash");
         ("severity", PStr "critical");
         ("message", PStr ("Pod nginx-eval in production is CrashLoopBackOff (eval "
                           ++ event_id ++ ")"))].

Definition test_push_critical_event (c : client) : prog unit :=
  hex <- uuid4_hex;;
  let event_id := "eval-" ++ String.substring 0 8 hex in
  resp <- client_post c "/v0/agent/events" (critical_event_payload event_id);;
  assert_ (status_code resp =? 200)%Z;;;
  body <- json resp;;
  queued <- getitem body "queued";;
  assert_ (is_True queued);;;
  has_id <- contains "id" body;;
  assert_ has_id.

Definition node_pressure_payload : pyval :=
  PDict [("source", PStr "k8s/node/worker-eval-1");
         ("type", PStr "node-pressure");
         ("severity", PStr "warning");
         ("message", PStr "Node worker-eval-1 is experiencing memory pressure")].

Definition test_push_event_updates_status (c : client) : prog unit :=
  resp <- client_post c "/v0/agent/events" node_pressure_payload;;
  assert_ (status_code resp =? 200)%Z;;;
  body <- json resp;;
  queued <- getitem body "queued";;
  assert_ (is_True queued);;;
  sleep PROCESS_WAIT_SECONDS;;;
  status_resp <- client_get c "/v0/agent/status";;
  status <- json status_resp;;
  running <- getitem status "running";;
  assert_ (is_True running);;;
  world_state <- getitem status "worldState";;
  total_events <- getitem world_state "totalEvents";;
  enough <- ge total_events 1;;
  assert_ enough.

Definition incident_payload (source : string) : pyval :=
  PDict [("source", PStr source);
         ("type", PStr "pod-crash");
         ("severity", PStr "critical");
         ("message", PStr ("Pod " ++ List.last (split "/" source) ""
                           ++ " in staging is OOMKilled"))].

Definition test_push_critical_creates_incident (c : client) : prog unit :=
  hex <- uuid4_hex;;
  let source := "k8s/pod/staging/api-eval-" ++ String.substring 0 6 hex in
  resp <- client_post c "/v0/agent/events" (incident_payload source);;
  assert_ (status_code resp =? 200)%Z;;;
  sleep PROCESS_WAIT_SECONDS;;;
  status_resp <- client_get c "/v0/agent/status";;
  status <- json status_resp;;
  world_state <- getitem status "worldState";;
  active <- getitem world_state "activeIncidents";;
  enough <- ge active 1;;
  assert_ enough;;;
  incidents <- dict_get status "incidents" (PList []);;
  n <- len incidents;;
  assert_ (1 <=? n)%Z.

Definition drain_payload : pyval :=
  PDict [("source", PStr "k8s/pod/default/drain-test");
         ("type", PStr "pod-restart");
         ("severity", PStr "info");
         ("message", PStr "Pod drain-test restarted")].

Definition test_queue_depth_decreases (c : client) : prog unit :=
  client_post c "/v0/agent/events" drain_payload;;;
  sleep PROCESS_WAIT_SECONDS;;;
  status_resp <- client_get c "/v0/agent/status";;
  status <- json status_resp;;
  queue <- getitem status "queue";;
  depth <- getitem queue "depth";;
  low <- le depth 1;;
  assert_ low;;;
  queue' <- getitem status "queue";;
  total <- getitem queue' "total";;
  enough <- ge total 1;;
  assert_ enough.

Definition missing_fields_payload : pyval := PDict [("source", PStr "test")].

Definition test_missing_required_fields (c : client) : prog unit :=
  resp <- client_post c "/v0/agent/events" missing_fields_payload;;
  assert_ (400 <=? status_code resp)%Z.

Definition empty_message_payload : pyval :=
  PDict [("source", PStr "test"); ("type", PStr "test"); ("message", PStr "")].

Definition test_empty_message (c : client) : prog unit :=
  resp <- client_post c "/v0/agent/events" empty_message_payload;;
  assert_ (400 <=? status_code resp)%Z.

(** *** evals/master_agent/agent.py *)

(** The module's own [A2A_URL]. *)
Definition agent_A2A_URL : string := getenv "MASTER_AGENT_A2A_URL" "http://localhost:8084".

Record RemoteA2aAgent : Type := {
  agent_name : string;
  agent_description : string;
  agent_card : string;
  streaming : bool
}.

Definition root_agent : RemoteA2aAgent :=
  {| agent_name := "master_agent";
     agent_description := "Infrastructure observer and triage agent that processes events, creates incidents, and maintains world state.";
     agent_card := agent_A2A_URL ++ "/.well-known/agent-card.json";
     streaming := true |}.

(** *** evals/test_a2a_eval.py *)

Definition EVAL_DIR : string := path_join here "eval_datasets".

(** [await AgentEvaluator.evaluate(...)] *)
Definition evaluate (agent_module dataset : string) (num_runs : Z) : prog unit :=
  Evaluate agent_module dataset num_runs (fun r =>
    match r with
    | None => Ret tt
    | Some e => Raise e
    end).

Definition test_triage_basic : prog unit :=
  evaluate "master_agent" (path_join EVAL_DIR "triage_basic.test.json") 1.

Definition test_multi_event : prog unit :=
  evaluate "master_agent" (path_join EVAL_DIR "multi_event.test.json") 1.

(** The tests of [evals/] in collection order, each with the fixtures it
    asks for. *)
Definition http_events_tests : list (string * prog unit) :=
  [("test_push_critical_event", test_push_critical_event http_client);
   ("test_push_event_updates_status", test_push_event_updates_status http_client);
   ("test_push_critical_creates_incident", test_push_critical_creates_incident http_client);
   ("test_queue_depth_decreases", test_queue_depth_decreases http_client);
   ("test_missing_required_fields", test_missing_required_fields http_client);
   ("test_empty_message", test_empty_message http_client)].

Definition collected : list (string * prog unit) :=
  [("test_triage_basic", test_triage_basic);
   ("test_multi_event", test_multi_event)] ++ http_events_tests.

Definition evals_session {S : Type} (w : world S) (s : S) : session_report S :=
  run_session w check_agent_health collected s.

(** *** test_mcp.py *)

Definition MCP_URL : string := "http://localhost:8083".

(** [requests.post(f"{MCP_URL}/message", json=payload, headers=...)] *)
Definition mcp_request (payload : pyval) : request :=
  Request POST None (MCP_URL ++ "/message") (Some payload)
          [("Content-Type", "application/json")] None.

Definition mcp_post (payload : pyval) : prog response := send (mcp_request payload).

Definition rule : string := repeat_char "=" 60.

(** The [payload] of [call_mcp_tool]. *)
Definition call_payload (tool_name : string) (arguments : pyval) : pyval :=
  PDict [("jsonrpc", PStr "2.0");
         ("id", PInt 1);
         ("method", PStr "tools/call");
         ("params", PDict [("name", PStr tool_name);
                           ("arguments", if truthy arguments then arguments
                                         else PDict [])])].

Definition call_mcp_tool (tool_name : string) (arguments : pyval) : prog pyval :=
  let payload := call_payload tool_name arguments in
  print (newline ++ rule);;;
  print ("Calling tool: " ++ tool_name);;;
  print ("Arguments: " ++ json_dumps arguments);;;
  print (rule ++ newline);;;
  response <- mcp_post payload;;
  if (status_code response =? 200)%Z then
    result <- json response;;
    print "✓ Success!";;;
    print (json_dumps result);;;
    Ret result
  else
    print ("✗ Error: " ++ pretty (status_code response));;;
    print (text response);;;
    Ret PNone.

(** The body of [for tool in tools]. *)
Definition show_tool (tool : pyval) : prog unit :=
  name <- getitem tool "name";;
  is_master <- contains "master" name;;
  hit <- (if is_master then Ret true
          else name' <- getitem tool "name";; contains "event" name');;
  if hit then
    shown <- getitem tool "name";;
    description <- dict_get tool "description" (PStr "No description");;
    print ("  - " ++ format shown ++ ": " ++ format description)
  else Ret tt.

Fixpoint for_each (f : pyval -> prog unit) (items : list pyval) : prog unit :=
  match items with
  | [] => Ret tt
  | x :: rest => f x;;; for_each f rest
  end.

(** The [payload] of [list_tools]. *)
Definition list_payload : pyval :=
  PDict [("jsonrpc", PStr "2.0");
         ("id", PInt 1);
         ("method", PStr "tools/list");
         ("params", PDict [])].

Definition list_tools : prog pyval :=
  let payload := list_payload in
  print (newline ++ rule);;;
  print "Listing available MCP tools";;;
  print (rule ++ newline);;;
  response <- mcp_post payload;;
  if (status_code response =? 200)%Z then
    result <- json response;;
    has_result <- contains "result" result;;
    has_tools <- (if has_result then inner <- getitem result "result";;
                                      contains "tools" inner
                  else Ret false);;
    (if has_tools then
       inner <- getitem result "result";;
       tools <- getitem inner "tools";;
       n <- len tools;;
       print ("Found " ++ pretty n ++ " tools:");;;
       items <- iterate tools;;
       for_each show_tool items
     else Ret tt);;;
    Ret result
  else
    print ("✗ Error: " ++ pretty (status_code response));;;
    print (text response);;;
    Ret PNone.

Definition main : prog unit :=
  print "Agent Registry MCP Tool Tester";;;
  print rule;;;
  list_tools;;;
  call_mcp_tool "get_master_agent_status" PNone;;;
  call_mcp_tool "emit_event"
    (PDict [("type", PStr "test-event");
            ("message", PStr "Testing MCP integration - simulated pod crash");
            ("severity", PStr "warning");
            ("source", PStr "mcp-test-client")]);;;
  print (newline ++ "⏳ Waiting 3 seconds for master agent to process event...");;;
  sleep 3;;;
  call_mcp_tool "get_master_agent_status" PNone;;;
  call_mcp_tool "get_recent_events" (PDict [("limit", PInt 10)]);;;
  print (newline ++ rule);;;
  print "✓ Test complete!";;;
  print rule.

(** ** What the scenarios observe

    The requests a scenario sends through its client, and the conditions of
    the specification on what comes back, as decidable checks. *)

Definition submission (c : client) (payload : pyval) : request :=
  Request POST (Some (base_url c)) "/v0/agent/events" (Some payload) []
          (Some (timeout c)).

Definition status_query (c : client) : request :=
  Request GET (Some (base_url c)) "/v0/agent/status" None [] (Some (timeout c)).

(** The request of the health gate, the exceptions its [except] clause
    catches, the message it skips with, and what it comes to for each
    answer of the probe. *)
Definition health_probe : request :=
  Request GET None (API_URL ++ "/v0/agent/status") None [] (Some 5).

Definition caught_by_gate (e : exn) : bool :=
  isinstance_any e [ConnectError; TimeoutException; HTTPStatusError].

Definition skip_message (failure : string) : string :=
  "Master agent not reachable at " ++ API_URL ++ ": " ++ failure.

Definition gate_verdict (ans : http_result) : unit + exn :=
  match ans with
  | Answered resp =>
      if is_success (status_code resp) then inl tt
      else inr (Exn Skipped
                  (skip_message (status_error_str (API_URL ++ "/v0/agent/status") resp)))
  | Failed_with e =>
      if caught_by_gate e then inr (Exn Skipped (skip_message (exn_str e)))
      else inr e
  end.

(** What the gate runs inside its [try]. *)
Definition health_check_body : prog unit :=
  resp <- httpx_get (API_URL ++ "/v0/agent/status") 5;;
  raise_for_status (API_URL ++ "/v0/agent/status") resp.

(** The failure of an unreachable service: a connection error, a timeout,
    or a response without a success status. *)
Definition probe_failure (ans : http_result) : option string :=
  match ans with
  | Answered resp =>
      if is_success (status_code resp) then None
      else Some (status_error_str (API_URL ++ "/v0/agent/status") resp)
  | Failed_with e =>
      if issubclass (exn_class e) ConnectError
         || issubclass (exn_class e) TimeoutException
      then Some (exn_str e) else None
  end.

Definition is_failure (o : outcome) : bool :=
  match o with
  | Failed _ | Errored _ => true
  | _ => false
  end.

(** A request of the probe script: straight to the tool server. *)
Definition to_mcp (rq : request) : Prop :=
  req_base rq = None /\ req_url rq = "http://localhost:8083/message".

(** What the probe prints around a call, and the tools [list_tools] shows. *)
Definition call_banner (tool_name : string) (arguments : pyval) : list event :=
  [EvPrint (newline ++ rule);
   EvPrint ("Calling tool: " ++ tool_name);
   EvPrint ("Arguments: " ++ json_dumps arguments);
   EvPrint (rule ++ newline)].

Definition list_banner : list event :=
  [EvPrint (newline ++ rule);
   EvPrint "Listing available MCP tools";
   EvPrint (rule ++ newline)].

Definition error_report (resp : response) : list event :=
  [EvPrint ("✗ Error: " ++ pretty (status_code resp)); EvPrint (text resp)].

Definition displayed (name : string) : bool :=
  is_infix "master" name || is_infix "event" name.

Definition has_name (tool : pyval) : bool :=
  match tool with
  | PDict items =>
      match dict_lookup "name" items with
      | Some (PStr _) => true
      | _ => false
      end
  | _ => false
  end.

Definition tool_line (tool : pyval) : option string :=
  match tool with
  | PDict items =>
      match dict_lookup "name" items with
      | Some (PStr name) =>
          if displayed name then
            Some ("  - " ++ name ++ ": "
                  ++ format (default (PStr "No description")
                                     (dict_lookup "description" items)))
          else None
      | _ => None
      end
  | _ => None
  end.

(** The [source] the incident scenario builds from its UUID. *)
Definition incident_source (hex : string) : string :=
  "k8s/pod/staging/api-eval-" ++ String.substring 0 6 hex.


(** The field at a path of keys, when every step is a dict that has it. *)
Fixpoint field (path : list string) (v : pyval) : option pyval :=
  match path with
  | [] => Some v
  | key :: rest =>
      match v with
      | PDict items =>
          match dict_lookup key items with
          | Some x => field rest x
          | None => None
          end
      | _ => None
      end
  end.

Definition body_field (path : list string) (r : response) : option pyval :=
  match json_body r with
  | Some v => field path v
  | None => None
  end.

Definition at_least (n : Z) (v : option pyval) : bool :=
  match v with
  | Some x => match as_int x with Some k => (n <=? k)%Z | None => false end
  | None => false
  end.


Definition is_true (v : option pyval) : bool :=
  match v with Some (PBool true) => true | _ => false end.

Definition present (v : option pyval) : bool :=
  match v with Some _ => true | None => false end.

(** A request that is not a submission, or submits a payload with a
    [source]. *)
Definition carries_source (rq : request) : Prop :=
  req_method rq = GET
  \/ exists payload, req_json rq = Some payload
                     /\ present (field ["source"] payload) = true.

(** The number of items of a sized value. *)
Definition size_of (v : pyval) : option Z :=
  match v with
  | PStr s => Some (Z.of_nat (String.length s))
  | PList l => Some (Z.of_nat (length l))
  | PDict items => Some (Z.of_nat (length items))
  | _ => None
  end.

Definition non_empty (v : option pyval) : bool :=
  match v with
  | Some x => match size_of x with Some n => (1 <=? n)%Z | None => false end
  | None => false
  end.

(** Submission Acknowledgement: success status, [queued] true, an [id]. *)
Definition acknowledged (r : response) : bool :=
  (status_code r =? 200)%Z && is_true (body_field ["queued"] r)
  && present (body_field ["id"] r).

(** An Event with its mandatory fields: [source], [type] and a non-empty
    [message]. *)
Definition well_formed_event (payload : pyval) : bool :=
  present (field ["source"] payload) && present (field ["type"] payload)
  && match field ["message"] payload with
     | Some (PStr m) => negb (String.eqb m "")
     | _ => false
     end.


Definition incident_created (snap : response) : bool :=
  at_least 1 (body_field ["worldState"; "activeIncidents"] snap)
  && non_empty (body_field ["incidents"] snap).


(** The sleeps of a trace, and the events it submitted. *)
Definition sleeps (t : list event) : list Z :=
  omap (fun ev => match ev with EvSleep n => Some n | _ => None end) t.




(** The six scenarios of [test_http_events.py]. *)
Definition http_scenarios : list (client -> prog unit) :=
  [test_push_critical_event;
   test_push_event_updates_status;
   test_push_critical_creates_incident;
   test_queue_depth_decreases;
   test_missing_required_fields;
   test_empty_message].

(** The requests of a trace, in order, and their number. *)
Definition requests_of (t : list event) : list request :=
  omap (fun ev => match ev with EvHttp rq _ => Some rq | _ => None end) t.

Definition n_requests (t : list event) : nat := length (requests_of t).

(** The requests and sleeps of a trace, in order. *)
Definition skeleton (t : list event) : list (request + Z) :=
  omap (fun ev => match ev with
                  | EvHttp rq _ => Some (inl rq)
                  | EvSleep n => Some (inr n)
                  | _ => None
                  end) t.

(** The string has no [/]. *)
Fixpoint no_slash (s : string) : bool :=
  match s with
  | EmptyString => true
  | String c rest => negb (Ascii.eqb c "/") && no_slash rest
  end.

(** A tool server that answers every request, never with status 200. *)
Definition always_rejects {S : Type} (w : world S) : Prop :=
  forall s rq, exists resp, snd (w_http w s rq) = Answered resp /\ status_code resp <> 200.

(** What the probe script prints first, and the payloads of its five
    requests in the order of the script. *)
Definition main_header : list event :=
  [EvPrint "Agent Registry MCP Tool Tester"; EvPrint rule].

Definition emit_arguments : pyval :=
  PDict [("type", PStr "test-event");
         ("message", PStr "Testing MCP integration - simulated pod crash");
         ("severity", PStr "warning");
         ("source", PStr "mcp-test-client")].

Definition main_payloads : list pyval :=
  [list_payload;
   call_payload "get_master_agent_status" PNone;
   call_payload "emit_event" emit_arguments;
   call_payload "get_master_agent_status" PNone;
   call_payload "get_recent_events" (PDict [("limit", PInt 10)])].

(** ** Example services

    Small worlds to run the harness against. *)

Definition fixed_uuid : string := "3f2b8c1d9e4a4b7f8a6c5d4e3f2a1b0c".

(** A service that accepts every well-formed event, works its queue off
    while the harness sleeps and opens an incident per critical event. *)
Record agent_state : Type := AgentState {
  pending : list pyval;
  total_events : Z;
  active_incidents : list pyval
}.

Definition is_critical (ev : pyval) : bool :=
  match field ["severity"] ev with
  | Some (PStr sev) => String.eqb sev "critical"
  | _ => false
  end.

Definition agent_snapshot (st : agent_state) : pyval :=
  PDict [("running", PBool true);
         ("worldState",
          PDict [("totalEvents", PInt (total_events st));
                 ("activeIncidents", PInt (Z.of_nat (length (active_incidents st))))]);
         ("queue",
          PDict [("depth", PInt (Z.of_nat (length (pending st))));
                 ("total", PInt (total_events st + Z.of_nat (length (pending st))))]);
         ("incidents", PList (active_incidents st))].

Definition agent_http (st : agent_state) (rq : request) : agent_state * http_result :=
  match req_method rq, req_json rq with
  | POST, Some ev =>
      if well_formed_event ev then
        (AgentState (pending st ++ [ev]) (total_events st) (active_incidents st),
         Answered (Response 200 "queued"
                     (Some (PDict [("queued", PBool true); ("id", PStr "evt")]))))
      else
        (st, Answered (Response 400 "invalid event"
                         (Some (PDict [("error", PStr "invalid event")]))))
  | POST, None => (st, Answered (Response 400 "" None))
  | GET, _ => (st, Answered (Response 200 "" (Some (agent_snapshot st))))
  end.

Definition agent_sleep (st : agent_state) (seconds : Z) : agent_state :=
  AgentState [] (total_events st + Z.of_nat (length (pending st)))
             (active_incidents st ++ List.filter is_critical (pending st)).

Definition agent_world : world agent_state :=
  World agent_http agent_sleep (fun st => (st, fixed_uuid))
        (fun st _ _ _ => (st, None)).

Definition agent_idle : agent_state := AgentState [] 0 [].

(** A world that answers every request the same way. *)
Definition constant_world (answer : http_result) : world unit :=
  World (fun _ _ => (tt, answer)) (fun _ _ => tt) (fun _ => (tt, fixed_uuid))
        (fun _ _ _ _ => (tt, None)).

(** Nothing listens at the address. *)
Definition refused : http_result :=
  Failed_with (Exn ConnectError "All connection attempts failed").

(** A service whose snapshot is stuck: not running, one event counted. *)
Definition stale_answer : http_result :=
  Answered (Response 200 ""
    (Some (PDict [("queued", PBool true);
                  ("id", PStr "evt");
                  ("running", PBool false);
                  ("worldState", PDict [("activeIncidents", PInt 1)]);
                  ("queue", PDict [("depth", PInt 0); ("total", PInt 1)]);
                  ("incidents", PList [PDict []])]))).

(** A world that answers submissions one way and every other request
    another way. *)
Definition method_world (on_post on_get : http_result) : world unit :=
  World (fun _ rq => (tt, match req_method rq with POST => on_post | GET => on_get end))
        (fun _ _ => tt) (fun _ => (tt, fixed_uuid)) (fun _ _ _ _ => (tt, None)).

(** A 200 answer with no body. *)
Definition bare_ok : http_result := Answered (Response 200 "" None).

(** A service that validates [type] and [message] and does not look at
    [source]. *)
Definition no_source_payload : pyval :=
  PDict [("type", PStr "pod-crash"); ("message", PStr "Pod api crashed")].

Definition has_type_and_message (payload : pyval) : bool :=
  present (field ["type"] payload)
  && match field ["message"] payload with
     | Some (PStr m) => negb (String.eqb m "")
     | _ => false
     end.

Definition source_blind_world : world unit :=
  World (fun _ rq =>
           (tt, match req_json rq with
                | Some payload =>
                    if has_type_and_message payload
                    then Answered (Response 200 "queued"
                                     (Some (PDict [("queued", PBool true);
                                                   ("id", PStr "evt")])))
                    else Answered (Response 400 "invalid event" None)
                | None => stale_answer
                end))
        (fun _ _ => tt) (fun _ => (tt, fixed_uuid)) (fun _ _ _ _ => (tt, None)).

(** A tool server that lists three tools. *)
Definition tool (name : string) (description : option string) : pyval :=
  PDict (("name", PStr name) ::
         match description with
         | Some d => [("description", PStr d)]
         | None => []
         end).

Definition three_tools : pyval :=
  PDict [("jsonrpc", PStr "2.0");
         ("id", PInt 1);
         ("result",
          PDict [("tools",
                  PList [tool "get_master_agent_status" (Some "Agent status");
                         tool "list_servers" (Some "Registered servers");
                         tool "emit_event" None])])].

Definition tools_answer : http_result := Answered (Response 200 "" (Some three_tools)).

Definition unavailable : http_result :=
  Answered (Response 503 "Service Unavailable" None).

(** A service that acknowledges and counts two incidents, without listing
    them, and one that lists them as [null]. *)
Definition unlisted_incidents : http_result :=
  Answered (Response 200 ""
    (Some (PDict [("queued", PBool true);
                  ("worldState", PDict [("activeIncidents", PInt 2)])]))).

Definition null_incidents : http_result :=
  Answered (Response 200 ""
    (Some (PDict [("queued", PBool true);
                  ("worldState", PDict [("activeIncidents", PInt 2)]);
                  ("incidents", PNone)]))).

(** An acknowledgement whose [queued] is the number 1. *)
Definition queued_as_number : http_result :=
  Answered (Response 200 "" (Some (PDict [("queued", PInt 1); ("id", PStr "evt")]))).

(** A gateway page instead of JSON. *)
Definition html_page : http_result :=
  Answered (Response 200 "<html>gateway</html>" None).

(** A JSON-RPC error reply. *)
Definition rpc_error : pyval :=
  PDict [("jsonrpc", PStr "2.0");
         ("id", PInt 1);
         ("error", PDict [("code", PInt (-32601)); ("message", PStr "Method not found")])].

Definition rpc_error_answer : http_result := Answered (Response 200 "" (Some rpc_error)).

(** A listing whose second tool has no name. *)
Definition nameless_listing : pyval :=
  PDict [("result",
          PDict [("tools",
                  PList [tool "get_master_agent_status" (Some "Agent status");
                         PDict [("description", PStr "anonymous")];
                         tool "emit_event" None])])].

Definition nameless_answer : http_result :=
  Answered (Response 200 "" (Some nameless_listing)).

(** The address cannot be parsed. *)
Definition bad_url : http_result :=
  Failed_with (Exn InvalidURL "Invalid non-printable ASCII character in URL").

(** Stand-ins for the renderers of the libraries, to run the examples. *)
Definition sketch (v : pyval) : string :=
  match v with
  | PNone => "null"
  | PBool true => "true"
  | PBool false => "false"
  | PInt n => pretty n
  | PStr s => s
  | PList _ => "[...]"
  | PDict _ => "{...}"
  end.

Definition status_line (url : string) (resp : response) : string :=
  "Server error " ++ pretty (status_code resp) ++ " for url " ++ url.

(** ** The monad and its runs *)

Lemma run_bind {S A B : Type} (w : world S) (p : prog A) (f : A -> prog B) (s : S) :
  run w (bind p f) s =
  match result (run w p s) with
  | inl a =>
      let r := run w (f a) (final (run w p s)) in
      RunResult (final r) (trace (run w p s) ++ trace r)%list (result r)
  | inr e => RunResult (final (run w p s)) (trace (run w p s)) (inr e)
  end.
Proof.
  revert s. induction p as [a|e|rq k IH|n k IH|line k IH|k IH|m d n k IH]; intros s; cbn.
  - destruct (run w (f a) s); reflexivity.
  - reflexivity.
  - destruct (w_http w s rq) as [s' r]. rewrite IH. unfold after; cbn.
    destruct (result (run w (k r) s')); reflexivity.
  - rewrite IH. unfold after; cbn.
    destruct (result (run w k (w_sleep w s n))); reflexivity.
  - rewrite IH. unfold after; cbn. destruct (result (run w k s)); reflexivity.
  - destruct (w_uuid w s) as [s' u]. rewrite IH. unfold after; cbn.
    destruct (result (run w (k u) s')); reflexivity.
  - destruct (w_evaluate w s m d n) as [s' r]. rewrite IH. unfold after; cbn.
    destruct (result (run w (k r) s')); reflexivity.
Qed.

(** Case analysis on what the world and the checks of a scenario do. *)
Ltac world_step :=
  match goal with
  | |- context [w_uuid ?w ?s] => destruct (w_uuid w s) as [? ?] eqn:?
  | |- context [w_http ?w ?s ?rq] =>
      let code := fresh "code" in
      let txt := fresh "txt" in
      let body := fresh "body" in
      destruct (w_http w s rq) as [? [[code txt body]|?]] eqn:?
  end; cbn.

Ltac check_step :=
  match goal with
  | |- context [assert_ ?b] => destruct b eqn:?
  | |- context [json (Response _ _ ?b)] => destruct b
  | |- context [getitem ?v _] => is_var v; destruct v
  | |- context [dict_get ?v _ _] => is_var v; destruct v
  | |- context [contains _ ?v] => is_var v; destruct v
  | |- context [ge ?v _] => is_var v; destruct v
  | |- context [le ?v _] => is_var v; destruct v
  | |- context [len ?v] => is_var v; destruct v
  | |- context [dict_lookup ?k ?l] => destruct (dict_lookup k l) eqn:?
  end; cbn.

Ltac settle :=
  cbn in *;
  repeat match goal with
         | H : ?x = _ |- context [?x] => rewrite H
         | H : ?x = _, H' : context [?x] |- _ => rewrite H in H'
         end;
  cbn in *;
  repeat match goal with
         | H : (_ =? _)%Z = true |- _ => apply Z.eqb_eq in H
         | H : (_ =? _)%Z = false |- _ => apply Z.eqb_neq in H
         | H : (_ <=? _)%Z = true |- _ => apply Z.leb_le in H
         | H : (_ <=? _)%Z = false |- _ => apply Z.leb_gt in H
         end;
  try congruence; try lia.

Ltac crush :=
  settle;
  repeat (match goal with
          | H : context [match ?x with _ => _ end] |- _ => destruct x eqn:?
          | |- context [match ?x with _ => _ end] => destruct x eqn:?
          end; settle).

(** *** C3 *)

(** C3, amended. Acknowledgement contract, as [test_push_critical_event]
    asserts it: for every UUID token the event it submits is well formed,
    and the scenario passes exactly when the response has status 200,
    [queued] is [True] and an [id] is present; the run is the UUID draw and
    the one request, with no sleep before the assertions. *)
Theorem push_critical_event_acknowledged (S : Type) (w : world S) (s : S) (c : client) :
  exists hex ans,
    let payload := critical_event_payload ("eval-" ++ String.substring 0 8 hex) in
    trace (run w (test_push_critical_event c) s)
      = [EvUuid hex; EvHttp (submission c payload) ans]
    /\ sleeps (trace (run w (test_push_critical_event c) s)) = []
    /\ well_formed_event payload = true
    /\ (call_outcome (result (run w (test_push_critical_event c) s)) = Passed
        <-> exists resp, ans = Answered resp /\ acknowledged resp = true).
Proof.
  unfold test_push_critical_event, client_post, submission. cbn.
  repeat world_step.
  2: { eexists _, _; split; [reflexivity|]; split; [reflexivity|]; split; [reflexivity|].
       split; [destruct (is_skip e); discriminate|]. intros (? & [=] & _). }
  repeat check_step.
  all: eexists _, _; split; [reflexivity|]; split; [reflexivity|]; split; [reflexivity|].
  all: unfold acknowledged, body_field.
  all: split; [ first [discriminate | intros _; eexists; split; [reflexivity|]]
              | intros (? & [= <-] & Hack) ].
  all: crush.
Qed.

(** The three convergence scenarios, run against any world. *)


Lemma push_critical_creates_incident_run (S : Type) (w : world S) (s : S) (c : client) :
  call_outcome (result (run w (test_push_critical_creates_incident c) s)) = Passed
  <-> exists hex ack snap,
        trace (run w (test_push_critical_creates_incident c) s)
          = [EvUuid hex;
             EvHttp (submission c (incident_payload (incident_source hex))) (Answered ack);
             EvSleep PROCESS_WAIT_SECONDS;
             EvHttp (status_query c) (Answered snap)]
        /\ status_code ack = 200
        /\ incident_created snap = true.
Proof.
  unfold test_push_critical_creates_incident, client_post, client_get, submission,
    status_query, incident_created, non_empty, body_field, incident_source.
  cbn. repeat (first [world_step | check_step]).
  all: try match goal with |- context [is_skip ?e] => destruct (is_skip e) end.
  all: split;
    [ first [ discriminate
            | intros _; eexists _, _, _; split; [reflexivity|]; repeat split ]
    | intros (? & ? & ? & Htrace & Hcode & Hsnap); simplify_eq ].
  all: crush.
Qed.


(** *** C1 *)

(** C1. Critical-severity convergence: [test_push_critical_creates_incident]
    submits an event of severity critical, sleeps the fixed window, fetches
    the status snapshot, and passes exactly when the submission got status
    200 and the snapshot has [worldState.activeIncidents >= 1] and a
    non-empty [incidents]; the condition is a lower bound, so every count
    from 1 upwards satisfies it. *)
Theorem critical_event_creates_incident (S : Type) (w : world S) (s : S) (c : client) :
  (forall hex,
     field ["severity"] (incident_payload (incident_source hex)) = Some (PStr "critical"))
  /\ (call_outcome (result (run w (test_push_critical_creates_incident c) s)) = Passed
      <-> exists hex ack snap,
            trace (run w (test_push_critical_creates_incident c) s)
              = [EvUuid hex;
                 EvHttp (submission c (incident_payload (incident_source hex)))
                        (Answered ack);
                 EvSleep PROCESS_WAIT_SECONDS;
                 EvHttp (status_query c) (Answered snap)]
            /\ status_code ack = 200
            /\ at_least 1 (body_field ["worldState"; "activeIncidents"] snap) = true
            /\ non_empty (body_field ["incidents"] snap) = true)
  /\ (forall snap k,
        body_field ["worldState"; "activeIncidents"] snap = Some (PInt k) ->
        non_empty (body_field ["incidents"] snap) = true ->
        (incident_created snap = true <-> 1 <= k)).
Proof.
  split; [reflexivity|]. split.
  - rewrite push_critical_creates_incident_run. unfold incident_created.
    split; intros (hex & ack & snap & Htrace & Hcode & Hsnap);
      exists hex, ack, snap; (split; [exact Htrace|]); (split; [exact Hcode|]).
    + apply andb_prop in Hsnap. exact Hsnap.
    + destruct Hsnap as [-> ->]. reflexivity.
  - intros snap k Hk Hne. unfold incident_created. rewrite Hk, Hne. cbn.
    rewrite andb_true_r. apply Z.leb_le.
Qed.


(** *** C2 *)


(** *** C6 *)



(** ** The health gate *)

Lemma check_agent_health_run (S : Type) (w : world S) (s : S) :
  run w check_agent_health s =
  RunResult (fst (w_http w s health_probe))
            [EvHttp health_probe (snd (w_http w s health_probe))]
            (gate_verdict (snd (w_http w s health_probe))).
Proof.
  unfold check_agent_health, httpx_get, health_probe, gate_verdict, raise_for_status,
    caught_by_gate, skip_message. cbn.
  destruct (w_http w s _) as [s' [resp|e]]; cbn.
  - destruct (is_success (status_code resp)); reflexivity.
  - match goal with |- context [if ?b then _ else _] => destruct b end; reflexivity.
Qed.

(** ** Requests and return values of a program *)

Lemma sends_only_bind {A B : Type} (P : request -> Prop) (p : prog A) (f : A -> prog B) :
  sends_only P p -> (forall a, sends_only P (f a)) -> sends_only P (bind p f).
Proof.
  intros Hp Hf.
  induction p as [a|e|rq k IH|n k IH|line k IH|k IH|m d n k IH]; cbn in Hp |- *.
  - apply Hf.
  - exact I.
  - destruct Hp as [Hrq Hk]. split; [exact Hrq | intros r; apply IH, Hk].
  - apply IH, Hp.
  - apply IH, Hp.
  - intros u. apply IH, Hp.
  - intros r. apply IH, Hp.
Qed.

Lemma sends_only_weaken {A : Type} (P Q : request -> Prop) (p : prog A) :
  (forall rq, P rq -> Q rq) -> sends_only P p -> sends_only Q p.
Proof.
  intros HPQ.
  induction p as [a|e|rq k IH|n k IH|line k IH|k IH|m d n k IH]; cbn; intros Hp.
  - exact I.
  - exact I.
  - destruct Hp as [Hrq Hk]. split; [apply HPQ, Hrq | intros r; apply IH, Hk].
  - apply IH, Hp.
  - apply IH, Hp.
  - intros u. apply IH, Hp.
  - intros r. apply IH, Hp.
Qed.

Lemma sends_only_run {S A : Type} (P : request -> Prop) (w : world S) (p : prog A) (s : S) :
  sends_only P p -> Forall (request_of P) (trace (run w p s)).
Proof.
  revert s. induction p as [a|e|rq k IH|n k IH|line k IH|k IH|m d n k IH];
    intros s Hp; cbn in Hp |- *.
  - constructor.
  - constructor.
  - destruct (w_http w s rq) as [s' r]. destruct Hp as [Hrq Hk].
    constructor; [exact Hrq | apply IH, Hk].
  - constructor; [exact I | apply IH, Hp].
  - constructor; [exact I | apply IH, Hp].
  - destruct (w_uuid w s) as [s' u]. constructor; [exact I | apply IH, Hp].
  - destruct (w_evaluate w s m d n) as [s' r]. constructor; [exact I | apply IH, Hp].
Qed.

Lemma returns_only_bind {A B : Type} (Q : B -> Prop) (p : prog A) (f : A -> prog B) :
  (forall a, returns_only Q (f a)) -> returns_only Q (bind p f).
Proof.
  intros Hf. induction p as [a|e|rq k IH|n k IH|line k IH|k IH|m d n k IH]; cbn.
  - apply Hf.
  - exact I.
  - intros r. apply IH.
  - exact IH.
  - exact IH.
  - intros u. apply IH.
  - intros r. apply IH.
Qed.

Lemma returns_only_run {S A : Type} (Q : A -> Prop) (w : world S) (p : prog A) (s : S) (a : A) :
  returns_only Q p -> result (run w p s) = inl a -> Q a.
Proof.
  revert s. induction p as [x|e|rq k IH|n k IH|line k IH|k IH|m d n k IH];
    intros s Hp Hr; cbn in Hp, Hr.
  - congruence.
  - discriminate.
  - destruct (w_http w s rq) as [s' r]. eapply IH; [apply Hp | exact Hr].
  - eapply IH; [apply Hp | exact Hr].
  - eapply IH; [apply Hp | exact Hr].
  - destruct (w_uuid w s) as [s' u]. eapply IH; [apply Hp | exact Hr].
  - destruct (w_evaluate w s m d n) as [s' r]. eapply IH; [apply Hp | exact Hr].
Qed.

Ltac sends :=
  unfold client_post, client_get, mcp_post, send, assert_, json, getitem, dict_get,
    contains, ge, le, len, iterate, raise_, sleep, print, uuid4_hex;
  repeat (cbn;
          match goal with
          | |- True => exact I
          | |- _ /\ _ => split
          | |- forall _, _ => intro
          | |- sends_only _ (bind _ _) => apply sends_only_bind; [|intros]
          | |- sends_only _ (match ?x with _ => _ end) => destruct x
          | |- sends_only _ (if ?b then _ else _) => destruct b
          end).

Lemma http_events_tests_requests :
  Forall (fun t : string * prog unit =>
            sends_only (fun rq => req_base rq = Some API_URL
                                  /\ req_timeout rq = Some 30) (snd t))
         http_events_tests.
Proof.
  unfold http_events_tests, test_push_critical_event, test_push_event_updates_status,
    test_push_critical_creates_incident, test_queue_depth_decreases,
    test_missing_required_fields, test_empty_message, http_client.
  repeat constructor; cbn [snd].
  all: sends.
  all: reflexivity.
Qed.

Lemma http_events_tests_carry_source :
  Forall (fun t : string * prog unit => sends_only carries_source (snd t))
         http_events_tests.
Proof.
  unfold http_events_tests, test_push_critical_event, test_push_event_updates_status,
    test_push_critical_creates_incident, test_queue_depth_decreases,
    test_missing_required_fields, test_empty_message, http_client, carries_source.
  repeat first [apply List.Forall_nil | apply List.Forall_cons]; cbn [snd].
  all: sends.
  all: first [left; reflexivity | right; eexists; split; reflexivity].
Qed.

Lemma validation_scenarios_run (S : Type) (w : world S) (s : S) (c : client) :
  (exists ans,
     trace (run w (test_missing_required_fields c) s)
       = [EvHttp (submission c missing_fields_payload) ans]
     /\ (call_outcome (result (run w (test_missing_required_fields c) s)) = Passed
         <-> exists resp, ans = Answered resp /\ 400 <= status_code resp))
  /\ (exists ans,
        trace (run w (test_empty_message c) s)
          = [EvHttp (submission c empty_message_payload) ans]
        /\ (call_outcome (result (run w (test_empty_message c) s)) = Passed
            <-> exists resp, ans = Answered resp /\ 400 <= status_code resp)).
Proof.
  unfold test_missing_required_fields, test_empty_message, client_post, submission.
  split.
  all: cbn; repeat (first [world_step | check_step]).
  all: try match goal with |- context [is_skip ?e] => destruct (is_skip e) end.
  all: eexists; split; [reflexivity|].
  all: split;
    [ first [ discriminate | intros _; eexists; split; [reflexivity|] ]
    | intros (? & ? & Hcode); simplify_eq ].
  all: crush.
Qed.

(** *** C4 *)

(** C4, amended. Rejection contract, as the harness asserts it: the two
    validation scenarios submit an event that has [source] and neither
    [type] nor [message], and an event with [source], [type] and an empty
    [message]; each passes exactly when the response status is at least
    400, whatever the code in that range. Every event the HTTP scenarios
    submit has a [source]. *)
Theorem validation_scenarios_reject (S : Type) (w : world S) (s : S) (c : client) :
  (field ["type"] missing_fields_payload = None
   /\ field ["message"] missing_fields_payload = None
   /\ well_formed_event missing_fields_payload = false)
  /\ (field ["message"] empty_message_payload = Some (PStr "")
      /\ well_formed_event empty_message_payload = false)
  /\ (exists ans,
        trace (run w (test_missing_required_fields c) s)
          = [EvHttp (submission c missing_fields_payload) ans]
        /\ (call_outcome (result (run w (test_missing_required_fields c) s)) = Passed
            <-> exists resp, ans = Answered resp /\ 400 <= status_code resp))
  /\ (exists ans,
        trace (run w (test_empty_message c) s)
          = [EvHttp (submission c empty_message_payload) ans]
        /\ (call_outcome (result (run w (test_empty_message c) s)) = Passed
            <-> exists resp, ans = Answered resp /\ 400 <= status_code resp))
  /\ (present (field ["source"] missing_fields_payload) = true
      /\ present (field ["source"] empty_message_payload) = true
      /\ Forall (fun t : string * prog unit => sends_only carries_source (snd t))
                http_events_tests).
Proof.
  split; [repeat split|]. split; [repeat split|].
  destruct (validation_scenarios_run S w s c) as [Hmissing Hempty].
  split; [exact Hmissing|]. split; [exact Hempty|].
  split; [reflexivity|]. split; [reflexivity|].
  apply http_events_tests_carry_source.
Qed.

Lemma probe_failure_verdict (ans : http_result) (failure : string) :
  probe_failure ans = Some failure ->
  gate_verdict ans = inr (Exn Skipped (skip_message failure)).
Proof.
  unfold probe_failure, gate_verdict, caught_by_gate, isinstance_any.
  destruct ans as [resp|e]; cbn [existsb].
  - destruct (is_success (status_code resp)); [discriminate|].
    intros H; injection H as <-. reflexivity.
  - destruct (issubclass (exn_class e) ConnectError); cbn [orb].
    + intros H; injection H as <-. reflexivity.
    + destruct (issubclass (exn_class e) TimeoutException); cbn [orb]; [|discriminate].
      intros H; injection H as <-. reflexivity.
Qed.

Lemma run_session_gate_raises (S : Type) (w : world S) (s : S)
    (tests : list (string * prog unit)) (e : exn) :
  gate_verdict (snd (w_http w s health_probe)) = inr e ->
  outcomes (run_session w check_agent_health tests s)
    = map (fun t => (fst t, setup_outcome e)) tests
  /\ (tests <> [] ->
      session_trace (run_session w check_agent_health tests s)
        = [EvHttp health_probe (snd (w_http w s health_probe))]).
Proof.
  intros Hv. unfold run_session. destruct tests as [|t tests]; [split; [reflexivity|congruence]|].
  rewrite check_agent_health_run. cbn. rewrite Hv. cbn. split; [reflexivity|]. reflexivity.
Qed.

(** *** C5 *)

(** C5. Health-gate skip: when the probe of the session meets a connection
    error, a timeout or a response without a success status, every test of
    the session is reported skipped, none failed or in error, with the
    message that names the base URL and embeds the failure; the only
    operation of the whole session is the one probe. *)
Theorem unreachable_service_skips_session (S : Type) (w : world S) (s : S)
    (tests : list (string * prog unit)) (failure : string) :
  tests <> [] ->
  probe_failure (snd (w_http w s health_probe)) = Some failure ->
  outcomes (run_session w check_agent_health tests s)
    = map (fun t => (fst t,
                     SkippedWith ("Master agent not reachable at " ++ API_URL
                                  ++ ": " ++ failure))) tests
  /\ List.filter (fun o => is_failure (snd o))
                 (outcomes (run_session w check_agent_health tests s)) = []
  /\ session_trace (run_session w check_agent_health tests s)
       = [EvHttp health_probe (snd (w_http w s health_probe))]
  /\ req_url health_probe = API_URL ++ "/v0/agent/status".
Proof.
  intros Hne Hfail. apply probe_failure_verdict in Hfail.
  destruct (run_session_gate_raises S w s tests _ Hfail) as [Hout Htrace].
  rewrite Hout. cbn. repeat split.
  - clear. induction tests as [|t tests IH]; [reflexivity|]. cbn. exact IH.
  - apply Htrace, Hne.
Qed.

(** *** C9 *)

(** C9. The gate is its body inside a [try] whose [except] names three
    classes: [ConnectError], [TimeoutException] and [HTTPStatusError]; with
    the four subclasses of [TimeoutException] these are all the exceptions
    it turns into a skip. The probe is sent with a timeout of 5 seconds. On
    an answer without a success status [raise_for_status] raises
    [HTTPStatusError] and the gate turns it into a skip that embeds it; on
    a success status the gate returns. An exception of the probe that is
    caught becomes a skip; any other comes out of the gate unchanged and
    every test of the session is in error with it, [InvalidURL] for one.
    The client of the scenarios has a timeout of 30 seconds and every
    request of theirs carries it. *)
Theorem health_gate_exception_filter (S : Type) (w : world S) (s : S)
    (tests : list (string * prog unit)) :
  check_agent_health
    = try_except health_check_body [ConnectError; TimeoutException; HTTPStatusError]
        (fun exc => pytest_skip ("Master agent not reachable at " ++ API_URL
                                 ++ ": " ++ exn_str exc))
  /\ req_timeout health_probe = Some 5
  /\ timeout http_client = 30
  /\ Forall (fun t : string * prog unit =>
               sends_only (fun rq => req_timeout rq = Some 30) (snd t))
            http_events_tests
  /\ (forall e,
        caught_by_gate e = true
        <-> In (exn_class e)
               [ConnectError; TimeoutException; ConnectTimeout; ReadTimeout;
                WriteTimeout; PoolTimeout; HTTPStatusError])
  /\ (forall resp,
        snd (w_http w s health_probe) = Answered resp ->
        (is_success (status_code resp) = false ->
         result (run w health_check_body s)
           = inr (Exn HTTPStatusError
                      (status_error_str (API_URL ++ "/v0/agent/status") resp))
         /\ result (run w check_agent_health s)
              = inr (Exn Skipped
                         ("Master agent not reachable at " ++ API_URL ++ ": "
                          ++ status_error_str (API_URL ++ "/v0/agent/status") resp))
         /\ outcomes (run_session w check_agent_health tests s)
              = map (fun t =>
                       (fst t,
                        SkippedWith
                          ("Master agent not reachable at " ++ API_URL ++ ": "
                           ++ status_error_str (API_URL ++ "/v0/agent/status") resp)))
                    tests)
        /\ (is_success (status_code resp) = true ->
            result (run w check_agent_health s) = inl tt))
  /\ (forall e,
        snd (w_http w s health_probe) = Failed_with e ->
        (caught_by_gate e = true ->
         result (run w check_agent_health s)
           = inr (Exn Skipped ("Master agent not reachable at " ++ API_URL
                               ++ ": " ++ exn_str e)))
        /\ (caught_by_gate e = false ->
            result (run w check_agent_health s) = inr e
            /\ (exn_class e <> Skipped ->
                outcomes (run_session w check_agent_health tests s)
                  = map (fun t => (fst t, Errored e)) tests)))
  /\ (forall msg, caught_by_gate (Exn InvalidURL msg) = false).
Proof.
  split; [reflexivity|]. split; [reflexivity|]. split; [reflexivity|]. split.
  { eapply Forall_impl; [apply http_events_tests_requests|].
    intros t Ht. eapply sends_only_weaken; [|exact Ht].
    intros rq [_ Hrq]. exact Hrq. }
  split.
  { intros e. unfold caught_by_gate, isinstance_any. destruct e as [cls msg].
    cbn [exn_class].
    destruct cls; split; intros H; try reflexivity; try discriminate H;
      cbn in H |- *;
      first [ progress repeat first [left; reflexivity | right]
            | repeat (destruct H as [H|H]; [discriminate H|]); destruct H ]. }
  split.
  { intros resp Hans. split.
    - intros Hbad.
      assert (Hv : gate_verdict (snd (w_http w s health_probe))
                   = inr (Exn Skipped
                              (skip_message
                                 (status_error_str (API_URL ++ "/v0/agent/status") resp)))).
      { rewrite Hans. unfold gate_verdict. rewrite Hbad. reflexivity. }
      split; [|split].
      + unfold health_check_body, httpx_get, send, raise_for_status, health_probe in *.
        cbn. destruct (w_http w s _) as [s' ans]. cbn in Hans. subst ans. cbn.
        rewrite Hbad. reflexivity.
      + rewrite check_agent_health_run. cbn [result]. exact Hv.
      + destruct (run_session_gate_raises S w s tests _ Hv) as [-> _]. reflexivity.
    - intros Hok. rewrite check_agent_health_run. cbn [result]. rewrite Hans.
      unfold gate_verdict. rewrite Hok. reflexivity. }
  split.
  { intros e Hans. split.
    - intros Hc. rewrite check_agent_health_run. cbn [result]. rewrite Hans.
      unfold gate_verdict. rewrite Hc. reflexivity.
    - intros Hc.
      assert (Hv : gate_verdict (snd (w_http w s health_probe)) = inr e).
      { rewrite Hans. unfold gate_verdict. rewrite Hc. reflexivity. }
      split.
      + rewrite check_agent_health_run. cbn [result]. exact Hv.
      + intros Hskip. destruct (run_session_gate_raises S w s tests e Hv) as [-> _].
        unfold setup_outcome, is_skip. destruct (exn_class e); congruence. }
  intros msg. reflexivity.
Qed.

(** ** Configuration *)

Lemma for_each_requests (P : request -> Prop) (f : pyval -> prog unit) (items : list pyval) :
  (forall x, sends_only P (f x)) -> sends_only P (for_each f items).
Proof.
  intros Hf. induction items as [|x items IH]; cbn; [exact I|].
  apply sends_only_bind; [apply Hf | intros _; exact IH].
Qed.

Lemma show_tool_requests (P : request -> Prop) (tool : pyval) : sends_only P (show_tool tool).
Proof. unfold show_tool. sends. Qed.

Lemma call_mcp_tool_requests (tool_name : string) (arguments : pyval) :
  sends_only to_mcp (call_mcp_tool tool_name arguments).
Proof. unfold call_mcp_tool, to_mcp. sends. all: reflexivity. Qed.

Lemma list_tools_requests : sends_only to_mcp list_tools.
Proof.
  unfold list_tools, to_mcp. sends.
  all: try reflexivity.
  all: apply for_each_requests, show_tool_requests.
Qed.

Lemma main_requests : sends_only to_mcp main.
Proof.
  unfold main.
  repeat first [ apply call_mcp_tool_requests
               | apply list_tools_requests
               | exact I
               | apply sends_only_bind; [|intros] ].
Qed.

(** *** C8 *)

(** C8. Configuration: [API_URL] is the value of [MASTER_AGENT_API_URL] and
    [http://localhost:8080] when the variable is unset; [A2A_URL], in the
    fixtures and in the agent module, is the value of
    [MASTER_AGENT_A2A_URL] and [http://localhost:8084] when unset; the
    scenarios and the gate send to [API_URL], the agent card is read under
    [A2A_URL]; [MCP_URL] is the constant [http://localhost:8083] and every
    request of the probe script goes to its [/message], whatever the
    environment holds. *)
Theorem configuration_resolution :
  API_URL = match environ !! "MASTER_AGENT_API_URL" with
            | Some url => url
            | None => "http://localhost:8080"
            end
  /\ A2A_URL = match environ !! "MASTER_AGENT_A2A_URL" with
               | Some url => url
               | None => "http://localhost:8084"
               end
  /\ agent_A2A_URL = A2A_URL
  /\ agent_card root_agent = A2A_URL ++ "/.well-known/agent-card.json"
  /\ base_url http_client = API_URL
  /\ req_url health_probe = API_URL ++ "/v0/agent/status"
  /\ Forall (fun t : string * prog unit =>
               sends_only (fun rq => req_base rq = Some API_URL) (snd t))
            http_events_tests
  /\ MCP_URL = "http://localhost:8083"
  /\ sends_only to_mcp main.
Proof.
  unfold API_URL, A2A_URL, agent_A2A_URL, getenv.
  split; [destruct (environ !! "MASTER_AGENT_API_URL"); reflexivity|].
  split; [destruct (environ !! "MASTER_AGENT_A2A_URL"); reflexivity|].
  split; [reflexivity|]. split; [reflexivity|]. split; [reflexivity|].
  split; [reflexivity|]. split.
  { eapply Forall_impl; [apply http_events_tests_requests|].
    intros t Ht. eapply sends_only_weaken; [|exact Ht].
    intros rq [Hrq _]. exact Hrq. }
  split; [reflexivity|]. apply main_requests.
Qed.

(** ** The protocol probe *)

(** *** C7 *)

(** C7. Graceful degradation: when the tool server answers a [tools/call]
    or a [tools/list] request with a status other than 200, the probe prints
    the status code and the raw body of the response after its banner,
    returns [None] and raises nothing. *)
Theorem probe_degrades_on_error (S : Type) (w : world S) (s : S) (resp : response)
    (tool_name : string) (arguments : pyval) :
  status_code resp <> 200 ->
  (snd (w_http w s (mcp_request (call_payload tool_name arguments))) = Answered resp ->
   result (run w (call_mcp_tool tool_name arguments) s) = inl PNone
   /\ trace (run w (call_mcp_tool tool_name arguments) s)
        = (call_banner tool_name arguments
           ++ [EvHttp (mcp_request (call_payload tool_name arguments)) (Answered resp);
               EvPrint ("✗ Error: " ++ pretty (status_code resp));
               EvPrint (text resp)])%list)
  /\ (snd (w_http w s (mcp_request list_payload)) = Answered resp ->
      result (run w list_tools s) = inl PNone
      /\ trace (run w list_tools s)
           = (list_banner
              ++ [EvHttp (mcp_request list_payload) (Answered resp);
                  EvPrint ("✗ Error: " ++ pretty (status_code resp));
                  EvPrint (text resp)])%list).
Proof.
  intros Hcode. apply Z.eqb_neq in Hcode.
  split; intros Hans.
  - unfold call_mcp_tool, mcp_post, send. cbn.
    destruct (w_http w s _) as [s' ans]. cbn in Hans. subst ans. cbn.
    rewrite Hcode. cbn. split; reflexivity.
  - unfold list_tools, mcp_post, send. cbn.
    destruct (w_http w s _) as [s' ans]. cbn in Hans. subst ans. cbn.
    rewrite Hcode. cbn. split; reflexivity.
Qed.

Lemma show_tool_run (S : Type) (w : world S) (s : S) (tool : pyval) :
  has_name tool = true ->
  run w (show_tool tool) s
    = RunResult s (map EvPrint (option_list (tool_line tool))) (inl tt).
Proof.
  unfold has_name, show_tool, tool_line, displayed.
  destruct tool as [| | | | |items]; try discriminate.
  cbn. destruct (dict_lookup "name" items) as [[| | |name| |]|]; try discriminate.
  intros _. cbn.
  destruct (is_infix "master" name); cbn; [reflexivity|].
  destruct (is_infix "event" name); cbn; reflexivity.
Qed.

Lemma for_each_show_tool_run (S : Type) (w : world S) (s : S) (tools : list pyval) :
  forallb has_name tools = true ->
  run w (for_each show_tool tools) s
    = RunResult s (map EvPrint (omap tool_line tools)) (inl tt).
Proof.
  induction tools as [|tool tools IH]; cbn [forallb for_each]; [reflexivity|].
  intros Hall. apply andb_prop in Hall. destruct Hall as [Htool Hall].
  rewrite run_bind, show_tool_run by exact Htool. cbn [result final trace].
  rewrite IH by exact Hall. cbn [result final trace].
  change (omap tool_line (tool :: tools))
    with (match tool_line tool with
          | Some line => line :: omap tool_line tools
          | None => omap tool_line tools
          end).
  destruct (tool_line tool); reflexivity.
Qed.

(** *** C10 *)

(** C10. Display-only filter: on a 200 response [list_tools] returns the
    parsed response itself whenever it returns; for a listing whose tools
    each have a string [name] it does return, and between the count line
    and the end it prints one line for each tool whose name contains
    [master] or [event], in order, and no line for the others. *)
Theorem list_tools_filter_is_display_only (S : Type) (w : world S) (s : S)
    (resp : response) (listing : pyval) :
  snd (w_http w s (mcp_request list_payload)) = Answered resp ->
  status_code resp = 200 ->
  json_body resp = Some listing ->
  (forall v, result (run w list_tools s) = inl v -> v = listing)
  /\ (forall tools,
        field ["result"; "tools"] listing = Some (PList tools) ->
        forallb has_name tools = true ->
        result (run w list_tools s) = inl listing
        /\ trace (run w list_tools s)
             = (list_banner
                ++ [EvHttp (mcp_request list_payload) (Answered resp);
                    EvPrint ("Found " ++ pretty (Z.of_nat (length tools)) ++ " tools:")]
                ++ map EvPrint (omap tool_line tools))%list)
  /\ (forall tool name,
        field ["name"] tool = Some (PStr name) ->
        (is_Some (tool_line tool)
         <-> is_infix "master" name = true \/ is_infix "event" name = true)).
Proof.
  intros Hans Hcode Hbody. destruct resp as [code txt body]. cbn in Hcode, Hbody. subst.
  split; [|split].
  - intros v. unfold list_tools, mcp_post, send. cbn.
    destruct (w_http w s _) as [s' ans]. cbn in Hans. subst ans. cbn.
    apply (returns_only_run (fun x => x = listing)).
    repeat (apply returns_only_bind; intros). reflexivity.
  - intros tools Htools Hnames. unfold list_tools, mcp_post, send. cbn.
    destruct (w_http w s _) as [s' ans]. cbn in Hans. subst ans. cbn.
    destruct listing as [| | | | |items]; try discriminate. cbn in Htools |- *.
    destruct (dict_lookup "result" items) as [[| | | | |inner]|]; try discriminate.
    cbn in Htools |- *.
    destruct (dict_lookup "tools" inner) as [found|]; [|discriminate].
    injection Htools as ->. cbn.
    rewrite !run_bind, for_each_show_tool_run by exact Hnames. cbn.
    rewrite app_nil_r. split; reflexivity.
  - intros tool name Hname. unfold tool_line, displayed.
    destruct tool as [| | | | |items]; try discriminate. cbn in Hname.
    destruct (dict_lookup "name" items) as [x|]; [|discriminate].
    injection Hname as ->.
    destruct (is_infix "master" name), (is_infix "event" name); cbn;
      split; intros H; try (eexists; reflexivity); auto;
      try (destruct H as [? H]; discriminate); destruct H; discriminate.
Qed.


(** ** Strings *)




Lemma split_no_slash (b : string) : no_slash b = true -> split "/" b = [b].
Proof.
  induction b as [|c b IH]; cbn [no_slash split]; [reflexivity|].
  intros H. apply andb_prop in H. destruct H as [Hc Hb].
  apply negb_true_iff in Hc. rewrite Hc, (IH Hb). reflexivity.
Qed.

Lemma split_ends_with (a b : string) :
  no_slash b = true ->
  exists first middle, split "/" (a ++ String "/" b) = first :: (middle ++ [b])%list.
Proof.
  intros Hb. induction a as [|c a IH].
  - exists "", []. change ("" ++ String "/" b) with (String "/" b).
    cbn [split]. change (Ascii.eqb "/" "/") with true. cbn iota.
    rewrite (split_no_slash b Hb). reflexivity.
  - destruct IH as (first & middle & IH).
    change (String c a ++ String "/" b) with (String c (a ++ String "/" b)).
    cbn [split]. rewrite IH. destruct (Ascii.eqb c "/").
    + exists "", (first :: middle). reflexivity.
    + exists (String c first), middle. reflexivity.
Qed.

(** X2. The incident scenario names the pod in its message: when the six
    characters taken from the UUID hold no [/], as hexadecimal digits do,
    [source.split('/')[-1]] is the last segment [api-eval-<hex>] of the
    source, and the event submitted is well formed. *)
Theorem incident_message_names_pod (hex : string) :
  no_slash (String.substring 0 6 hex) = true ->
  List.last (split "/" (incident_source hex)) ""
    = "api-eval-" ++ String.substring 0 6 hex
  /\ field ["message"] (incident_payload (incident_source hex))
       = Some (PStr ("Pod api-eval-" ++ String.substring 0 6 hex
                     ++ " in staging is OOMKilled"))
  /\ well_formed_event (incident_payload (incident_source hex)) = true.
Proof.
  intros Hhex.
  assert (Hlast : List.last (split "/" (incident_source hex)) ""
                  = "api-eval-" ++ String.substring 0 6 hex).
  { set (pod := "api-eval-" ++ String.substring 0 6 hex).
    destruct (split_ends_with "k8s/pod/staging" pod) as (first & middle & Hsplit);
      [exact Hhex|].
    change (incident_source hex) with ("k8s/pod/staging" ++ String "/" pod).
    rewrite Hsplit.
    change (first :: (middle ++ [pod])%list) with (((first :: middle) ++ [pod])%list).
    apply last_last. }
  split; [exact Hlast|]. split.
  - unfold incident_payload. cbn [field dict_lookup String.eqb Ascii.eqb Bool.eqb].
    rewrite Hlast. reflexivity.
  - reflexivity.
Qed.


(** ** Failures of the scenarios *)

Ltac each_scenario :=
  unfold http_scenarios;
  repeat first [apply List.Forall_nil | apply List.Forall_cons].

(** X3. No retry: when the transport raises on every request, each HTTP
    scenario raises that exception out of its first request; it sends
    nothing more and does not sleep. *)
Theorem scenarios_do_not_retry (S : Type) (w : world S) (e : exn) (c : client) :
  (forall s rq, snd (w_http w s rq) = Failed_with e) ->
  forall s,
    Forall (fun test : client -> prog unit =>
              result (run w (test c) s) = inr e
              /\ n_requests (trace (run w (test c) s)) = 1%nat
              /\ sleeps (trace (run w (test c) s)) = [])
           http_scenarios.
Proof.
  intros Hdown s. each_scenario.
  all: unfold test_push_critical_event, test_push_event_updates_status,
         test_push_critical_creates_incident, test_queue_depth_decreases,
         test_missing_required_fields, test_empty_message, client_post, send; cbn.
  all: try (destruct (w_uuid w s) as [s1 hex]; cbn).
  all: match goal with
       | |- context [w_http ?wd ?st ?rq] =>
           pose proof (Hdown st rq) as Hrq; destruct (w_http wd st rq) as [s2 ans];
           cbn in Hrq; subst ans; cbn
       end.
  all: repeat split.
Qed.

(** X4. Fail fast: when the submission of the liveness scenario or of the
    incident scenario is answered with a status other than 200, the
    scenario fails on its assertion at once; it neither sleeps nor fetches
    the status snapshot. *)
Theorem unacknowledged_submission_fails_fast (S : Type) (w : world S) (s : S)
    (c : client) (ack : response) :
  status_code ack <> 200 ->
  (snd (w_http w s (submission c node_pressure_payload)) = Answered ack ->
   result (run w (test_push_event_updates_status c) s) = inr (Exn AssertionError "")
   /\ trace (run w (test_push_event_updates_status c) s)
        = [EvHttp (submission c node_pressure_payload) (Answered ack)])
  /\ (snd (w_http w (fst (w_uuid w s))
             (submission c (incident_payload (incident_source (snd (w_uuid w s))))))
        = Answered ack ->
      result (run w (test_push_critical_creates_incident c) s)
        = inr (Exn AssertionError "")
      /\ trace (run w (test_push_critical_creates_incident c) s)
           = [EvUuid (snd (w_uuid w s));
              EvHttp (submission c (incident_payload (incident_source (snd (w_uuid w s)))))
                     (Answered ack)]).
Proof.
  intros Hcode. apply Z.eqb_neq in Hcode. split; intros Hans.
  - unfold test_push_event_updates_status, client_post, send, submission in *. cbn.
    destruct (w_http w s _) as [s1 ans]. cbn in Hans. subst ans. cbn.
    rewrite Hcode. cbn. split; reflexivity.
  - unfold test_push_critical_creates_incident, client_post, send, submission,
      incident_source in *. cbn.
    destruct (w_uuid w s) as [s1 hex]. cbn in Hans |- *.
    destruct (w_http w s1 _) as [s2 ans]. cbn in Hans. subst ans. cbn.
    rewrite Hcode. cbn. split; reflexivity.
Qed.

(** X5. Bounded effort: in every world, each HTTP scenario sends at most two
    requests and either does not sleep or sleeps once, for the fixed
    window; there is no polling loop and no second attempt. *)
Theorem scenarios_bounded_effort (S : Type) (w : world S) (s : S) (c : client) :
  Forall (fun test : client -> prog unit =>
            (n_requests (trace (run w (test c) s)) <= 2)%nat
            /\ (sleeps (trace (run w (test c) s)) = []
                \/ sleeps (trace (run w (test c) s)) = [PROCESS_WAIT_SECONDS]))
         http_scenarios.
Proof.
  each_scenario.
  all: unfold test_push_critical_event, test_push_event_updates_status,
         test_push_critical_creates_incident, test_queue_depth_decreases,
         test_missing_required_fields, test_empty_message, client_post, client_get; cbn.
  all: repeat (first [world_step | check_step]).
  all: cbn; split; [lia | auto].
Qed.


(** X6. What the incident scenario does with a snapshot that is not as
    expected, once the submission got status 200: a body that is not JSON
    raises [JSONDecodeError]; a snapshot without [worldState] raises
    [KeyError]; with [activeIncidents >= 1], a snapshot without the key
    [incidents] is read as an empty list and fails the assertion, while
    [incidents] present as [null] raises [TypeError] from [len]. *)
Theorem incident_snapshot_errors (S : Type) (w : world S) (s s1 s2 s3 : S)
    (c : client) (hex : string) (ack snap : response) :
  w_uuid w s = (s1, hex) ->
  w_http w s1 (submission c (incident_payload (incident_source hex)))
    = (s2, Answered ack) ->
  status_code ack = 200 ->
  w_http w (w_sleep w s2 PROCESS_WAIT_SECONDS) (status_query c) = (s3, Answered snap) ->
  (json_body snap = None ->
   exists msg,
     result (run w (test_push_critical_creates_incident c) s)
       = inr (Exn JSONDecodeError msg))
  /\ (forall items,
        json_body snap = Some (PDict items) ->
        dict_lookup "worldState" items = None ->
        result (run w (test_push_critical_creates_incident c) s)
          = inr (Exn KeyError "'worldState'"))
  /\ (at_least 1 (body_field ["worldState"; "activeIncidents"] snap) = true ->
      body_field ["incidents"] snap = None ->
      result (run w (test_push_critical_creates_incident c) s)
        = inr (Exn AssertionError ""))
  /\ (at_least 1 (body_field ["worldState"; "activeIncidents"] snap) = true ->
      body_field ["incidents"] snap = Some PNone ->
      result (run w (test_push_critical_creates_incident c) s)
        = inr (Exn TypeError "object of type 'NoneType' has no len()")).
Proof.
  intros Huuid Hpost Hcode Hget. apply Z.eqb_eq in Hcode.
  unfold test_push_critical_creates_incident, client_post, client_get, send,
    submission, status_query, incident_source, body_field in *.
  cbn. rewrite Huuid. cbn. rewrite Hpost. cbn. rewrite Hcode. cbn. rewrite Hget.
  destruct snap as [code txt body]. cbn.
  split; [|split; [|split]].
  - intros ->. eexists. reflexivity.
  - intros items -> Hws. cbn. rewrite Hws. reflexivity.
  - intros Hactive Hinc. destruct body as [[| | | | |items]|]; try discriminate.
    cbn in *. destruct (dict_lookup "worldState" items) as [[| | | | |ws]|];
      try discriminate.
    cbn in *. destruct (dict_lookup "activeIncidents" ws) as [active|]; [|discriminate].
    destruct active; try discriminate; cbn in *; rewrite Hactive; cbn;
      destruct (dict_lookup "incidents" items); try discriminate; reflexivity.
  - intros Hactive Hinc. destruct body as [[| | | | |items]|]; try discriminate.
    cbn in *. destruct (dict_lookup "worldState" items) as [[| | | | |ws]|];
      try discriminate.
    cbn in *. destruct (dict_lookup "activeIncidents" ws) as [active|]; [|discriminate].
    destruct active; try discriminate; cbn in *; rewrite Hactive; cbn;
      destruct (dict_lookup "incidents" items) as [inc|]; try discriminate;
      injection Hinc as ->; reflexivity.
Qed.

(** X7. A reachable service: when the probe is answered with a 2xx status
    the gate lets the session through; the tests run one after the other
    from the state the probe left, and the probe is the first operation of
    the session. *)
Theorem reachable_service_runs_session (S : Type) (w : world S) (s : S)
    (tests : list (string * prog unit)) (resp : response) :
  snd (w_http w s health_probe) = Answered resp ->
  is_success (status_code resp) = true ->
  result (run w check_agent_health s) = inl tt
  /\ outcomes (run_session w check_agent_health tests s)
       = outcomes (run_tests w tests (fst (w_http w s health_probe)))
  /\ (tests <> [] ->
      session_trace (run_session w check_agent_health tests s)
        = EvHttp health_probe (Answered resp)
          :: session_trace (run_tests w tests (fst (w_http w s health_probe)))).
Proof.
  intros Hans Hok.
  assert (Hrun : run w check_agent_health s
                 = RunResult (fst (w_http w s health_probe))
                             [EvHttp health_probe (Answered resp)] (inl tt)).
  { rewrite check_agent_health_run, Hans. unfold gate_verdict. rewrite Hok. reflexivity. }
  split; [rewrite Hrun; reflexivity|].
  unfold run_session. destruct tests as [|t tests].
  - split; [reflexivity | congruence].
  - rewrite Hrun. cbn [result final trace outcomes session_trace]. split; reflexivity.
Qed.


(** ** The probe, answer by answer *)

(** X8. A successful tool call: on a 200 response whose body is JSON,
    [call_mcp_tool] prints the success mark and the result and returns the
    parsed body. *)
Theorem call_mcp_tool_returns_result (S : Type) (w : world S) (s : S)
    (resp : response) (body : pyval) (tool_name : string) (arguments : pyval) :
  snd (w_http w s (mcp_request (call_payload tool_name arguments))) = Answered resp ->
  status_code resp = 200 ->
  json_body resp = Some body ->
  result (run w (call_mcp_tool tool_name arguments) s) = inl body
  /\ trace (run w (call_mcp_tool tool_name arguments) s)
       = (call_banner tool_name arguments
          ++ [EvHttp (mcp_request (call_payload tool_name arguments)) (Answered resp);
              EvPrint "✓ Success!";
              EvPrint (json_dumps body)])%list.
Proof.
  intros Hans Hcode Hbody. destruct resp as [code txt parsed]. cbn in Hcode, Hbody. subst.
  unfold call_mcp_tool, mcp_post, send. cbn.
  destruct (w_http w s _) as [s' ans]. cbn in Hans. subst ans. cbn.
  split; reflexivity.
Qed.

(** X9. A 200 response whose body is not JSON: both probe functions raise
    [JSONDecodeError] out of [response.json()], after the request and
    before anything else is printed; the graceful path covers statuses
    other than 200 only. *)
Theorem probe_raises_on_undecodable_body (S : Type) (w : world S) (s : S)
    (resp : response) (tool_name : string) (arguments : pyval) :
  status_code resp = 200 ->
  json_body resp = None ->
  (snd (w_http w s (mcp_request (call_payload tool_name arguments))) = Answered resp ->
   (exists msg, result (run w (call_mcp_tool tool_name arguments) s)
                = inr (Exn JSONDecodeError msg))
   /\ trace (run w (call_mcp_tool tool_name arguments) s)
        = (call_banner tool_name arguments
           ++ [EvHttp (mcp_request (call_payload tool_name arguments)) (Answered resp)])%list)
  /\ (snd (w_http w s (mcp_request list_payload)) = Answered resp ->
      (exists msg, result (run w list_tools s) = inr (Exn JSONDecodeError msg))
      /\ trace (run w list_tools s)
           = (list_banner ++ [EvHttp (mcp_request list_payload) (Answered resp)])%list).
Proof.
  intros Hcode Hbody. destruct resp as [code txt parsed]. cbn in Hcode, Hbody. subst.
  split; intros Hans.
  - unfold call_mcp_tool, mcp_post, send. cbn.
    destruct (w_http w s _) as [s' ans]. cbn in Hans. subst ans. cbn.
    split; [eexists|]; reflexivity.
  - unfold list_tools, mcp_post, send. cbn.
    destruct (w_http w s _) as [s' ans]. cbn in Hans. subst ans. cbn.
    split; [eexists|]; reflexivity.
Qed.

(** X10. An unreachable tool server: when the transport raises on every
    request, [call_mcp_tool] and [list_tools] raise that exception, and the
    script stops at its first request, the listing, with only the header
    and the banner printed. *)
Theorem probe_halts_when_unreachable (S : Type) (w : world S) (s : S) (e : exn)
    (tool_name : string) (arguments : pyval) :
  (forall s rq, snd (w_http w s rq) = Failed_with e) ->
  result (run w (call_mcp_tool tool_name arguments) s) = inr e
  /\ result (run w list_tools s) = inr e
  /\ result (run w main s) = inr e
  /\ trace (run w main s)
       = (main_header ++ list_banner
          ++ [EvHttp (mcp_request list_payload) (Failed_with e)])%list.
Proof.
  intros Hdown. repeat split.
  all: unfold main, call_mcp_tool, list_tools, mcp_post, send; cbn.
  all: match goal with
       | |- context [w_http ?wd ?st ?rq] =>
           pose proof (Hdown st rq) as Hrq; destruct (w_http wd st rq) as [s' ans];
           cbn in Hrq; subst ans; cbn
       end.
  all: reflexivity.
Qed.


Lemma run_then {S A B : Type} (w : world S) (p : prog A) (f : A -> prog B)
    (s s' s'' : S) (t t' : list event) (a : A) (r : B + exn) :
  run w p s = RunResult s' t (inl a) ->
  run w (f a) s' = RunResult s'' t' r ->
  run w (bind p f) s = RunResult s'' (t ++ t')%list r.
Proof. intros Hp Hf. rewrite run_bind, Hp. cbn. rewrite Hf. reflexivity. Qed.

Lemma call_mcp_tool_rejected (S : Type) (w : world S) (s : S)
    (tool_name : string) (arguments : pyval) :
  always_rejects w ->
  exists s' resp,
    run w (call_mcp_tool tool_name arguments) s
      = RunResult s'
                  (call_banner tool_name arguments
                   ++ EvHttp (mcp_request (call_payload tool_name arguments)) (Answered resp)
                      :: error_report resp)%list
                  (inl PNone).
Proof.
  intros Hrej.
  destruct (Hrej s (mcp_request (call_payload tool_name arguments))) as (resp & Hans & Hcode).
  apply Z.eqb_neq in Hcode.
  exists (fst (w_http w s (mcp_request (call_payload tool_name arguments)))), resp.
  unfold call_mcp_tool, mcp_post, send. cbn.
  destruct (w_http w s _) as [s' ans]. cbn in Hans. subst ans. cbn.
  rewrite Hcode. reflexivity.
Qed.

Lemma list_tools_rejected (S : Type) (w : world S) (s : S) :
  always_rejects w ->
  exists s' resp,
    run w list_tools s
      = RunResult s'
                  (list_banner
                   ++ EvHttp (mcp_request list_payload) (Answered resp)
                      :: error_report resp)%list
                  (inl PNone).
Proof.
  intros Hrej.
  destruct (Hrej s (mcp_request list_payload)) as (resp & Hans & Hcode).
  apply Z.eqb_neq in Hcode.
  exists (fst (w_http w s (mcp_request list_payload))), resp.
  unfold list_tools, mcp_post, send. cbn.
  destruct (w_http w s _) as [s' ans]. cbn in Hans. subst ans. cbn.
  rewrite Hcode. reflexivity.
Qed.

(** X11. The script does not stop on a rejection: against a tool server that
    answers every request with a status other than 200, [main] runs to its
    end; it sends its five requests in the order of the script (listing,
    status, event, status, recent events) and sleeps once, 3 seconds,
    between the event and the second status call. *)
Theorem main_runs_through_rejections (S : Type) (w : world S) (s : S) :
  always_rejects w ->
  result (run w main s) = inl tt
  /\ skeleton (trace (run w main s))
       = [inl (mcp_request list_payload);
          inl (mcp_request (call_payload "get_master_agent_status" PNone));
          inl (mcp_request (call_payload "emit_event" emit_arguments));
          inr 3;
          inl (mcp_request (call_payload "get_master_agent_status" PNone));
          inl (mcp_request (call_payload "get_recent_events" (PDict [("limit", PInt 10)])))]
  /\ omap req_json (requests_of (trace (run w main s))) = main_payloads.
Proof.
  intros Hrej.
  destruct (list_tools_rejected S w s Hrej) as (s1 & r1 & H1).
  destruct (call_mcp_tool_rejected S w s1 "get_master_agent_status" PNone Hrej)
    as (s2 & r2 & H2).
  destruct (call_mcp_tool_rejected S w s2 "emit_event" emit_arguments Hrej)
    as (s3 & r3 & H3).
  destruct (call_mcp_tool_rejected S w (w_sleep w s3 3) "get_master_agent_status" PNone Hrej)
    as (s4 & r4 & H4).
  destruct (call_mcp_tool_rejected S w s4 "get_recent_events"
              (PDict [("limit", PInt 10)]) Hrej)
    as (s5 & r5 & H5).
  assert (Hmain : exists t,
             run w main s = RunResult s5 t (inl tt)
             /\ skeleton t
                = [inl (mcp_request list_payload);
                   inl (mcp_request (call_payload "get_master_agent_status" PNone));
                   inl (mcp_request (call_payload "emit_event" emit_arguments));
                   inr 3;
                   inl (mcp_request (call_payload "get_master_agent_status" PNone));
                   inl (mcp_request (call_payload "get_recent_events"
                                       (PDict [("limit", PInt 10)])))]
             /\ omap req_json (requests_of t) = main_payloads).
  { eexists. split; [|split].
    - unfold main.
      eapply run_then; [reflexivity|].
      eapply run_then; [reflexivity|].
      eapply run_then; [exact H1|].
      eapply run_then; [exact H2|].
      eapply run_then; [exact H3|].
      eapply run_then; [reflexivity|].
      eapply run_then; [reflexivity|].
      eapply run_then; [exact H4|].
      eapply run_then; [exact H5|].
      eapply run_then; [reflexivity|].
      eapply run_then; [reflexivity|].
      reflexivity.
    - reflexivity.
    - reflexivity. }
  destruct Hmain as (t & -> & Hskeleton & Hpayloads). cbn [result trace].
  split; [reflexivity|]. split; [exact Hskeleton | exact Hpayloads].
Qed.


(** X12. A 200 reply without a listing: when the parsed body is a dict
    with no [result], as a JSON-RPC error reply is, or its [result] is a
    dict with no [tools], [list_tools] prints nothing after its banner, not
    even a count, and returns the reply as it is. *)
Theorem list_tools_without_listing (S : Type) (w : world S) (s : S)
    (resp : response) (items : list (string * pyval)) :
  snd (w_http w s (mcp_request list_payload)) = Answered resp ->
  status_code resp = 200 ->
  json_body resp = Some (PDict items) ->
  (dict_lookup "result" items = None
   \/ exists inner, dict_lookup "result" items = Some (PDict inner)
                    /\ dict_lookup "tools" inner = None) ->
  result (run w list_tools s) = inl (PDict items)
  /\ trace (run w list_tools s)
       = (list_banner ++ [EvHttp (mcp_request list_payload) (Answered resp)])%list.
Proof.
  intros Hans Hcode Hbody Hmissing.
  destruct resp as [code txt parsed]. cbn in Hcode, Hbody. subst.
  unfold list_tools, mcp_post, send. cbn.
  destruct (w_http w s _) as [s' ans]. cbn in Hans. subst ans. cbn.
  destruct Hmissing as [Hnone|(inner & Hinner & Htools)].
  - rewrite Hnone. cbn. split; reflexivity.
  - rewrite Hinner. cbn. rewrite Htools. cbn. split; reflexivity.
Qed.

Lemma for_each_show_tool_stops (S : Type) (w : world S) (s : S)
    (shown : list pyval) (bad : list (string * pyval)) (rest : list pyval) :
  forallb has_name shown = true ->
  dict_lookup "name" bad = None ->
  run w (for_each show_tool (shown ++ PDict bad :: rest)) s
    = RunResult s (map EvPrint (omap tool_line shown)) (inr (Exn KeyError "'name'")).
Proof.
  intros Hshown Hbad. induction shown as [|tool shown IH].
  - cbn [app for_each]. rewrite run_bind. unfold show_tool. cbn. rewrite Hbad. reflexivity.
  - cbn [forallb] in Hshown. apply andb_prop in Hshown. destruct Hshown as [Htool Hshown].
    change ((tool :: shown) ++ PDict bad :: rest)%list
      with (tool :: (shown ++ PDict bad :: rest))%list.
    cbn [for_each]. rewrite run_bind, show_tool_run by exact Htool.
    cbn [result final trace]. rewrite (IH Hshown). cbn [result final trace].
    change (omap tool_line (tool :: shown))
      with (match tool_line tool with
            | Some line => line :: omap tool_line shown
            | None => omap tool_line shown
            end).
    destruct (tool_line tool); reflexivity.
Qed.

(** X13. A tool without a name: when an entry of the listing is a dict
    with no [name], [list_tools] raises [KeyError] at that entry; the
    matching tools before it have been printed, those after it are not
    looked at, and the listing is not returned. *)
Theorem list_tools_raises_on_nameless_tool (S : Type) (w : world S) (s : S)
    (resp : response) (listing : pyval)
    (shown : list pyval) (bad : list (string * pyval)) (rest : list pyval) :
  snd (w_http w s (mcp_request list_payload)) = Answered resp ->
  status_code resp = 200 ->
  json_body resp = Some listing ->
  field ["result"; "tools"] listing = Some (PList (shown ++ PDict bad :: rest)) ->
  forallb has_name shown = true ->
  dict_lookup "name" bad = None ->
  result (run w list_tools s) = inr (Exn KeyError "'name'")
  /\ trace (run w list_tools s)
       = (list_banner
          ++ [EvHttp (mcp_request list_payload) (Answered resp);
              EvPrint ("Found "
                       ++ pretty (Z.of_nat (length (shown ++ PDict bad :: rest)))
                       ++ " tools:")]
          ++ map EvPrint (omap tool_line shown))%list.
Proof.
  intros Hans Hcode Hbody Htools Hshown Hbad.
  destruct resp as [code txt parsed]. cbn in Hcode, Hbody. subst.
  unfold list_tools, mcp_post, send. cbn.
  destruct (w_http w s _) as [s' ans]. cbn in Hans. subst ans. cbn.
  destruct listing as [| | | | |items]; try discriminate. cbn in Htools |- *.
  destruct (dict_lookup "result" items) as [[| | | | |inner]|]; try discriminate.
  cbn in Htools |- *.
  destruct (dict_lookup "tools" inner) as [found|]; [|discriminate].
  injection Htools as ->. cbn.
  rewrite !run_bind, for_each_show_tool_stops by assumption. cbn.
  split; reflexivity.
Qed.

(** ** The evaluations and the tokens *)

Lemma append_cancel_l (a x y : string) : a ++ x = a ++ y -> x = y.
Proof.
  induction a as [|c a IH]; intros H; [exact H|].
  apply IH. change (String c (a ++ x) = String c (a ++ y)) in H. congruence.
Qed.

Lemma append_cancel_r (x y : string) (c : ascii) :
  x ++ String c "" = y ++ String c "" -> x = y.
Proof.
  revert y. induction x as [|a x IH]; intros [|b y] H.
  - reflexivity.
  - change (String c "" = String b (y ++ String c "")) in H.
    destruct y; discriminate.
  - change (String a (x ++ String c "") = String c "") in H.
    destruct x; discriminate.
  - change (String a (x ++ String c "") = String b (y ++ String c "")) in H.
    injection H as -> H. f_equal. apply IH, H.
Qed.

(** X14. The two A2A evaluations: each calls the evaluator once, for the
    module [master_agent], with one run, on its own dataset file under
    [EVAL_DIR]; it sends no HTTP request and does not sleep, and it passes
    exactly when the evaluator raises nothing. The two dataset paths
    differ. *)
Theorem evaluations_call_the_evaluator_once (S : Type) (w : world S) (s : S) :
  Forall (fun td : prog unit * string =>
            exists r,
              trace (run w (fst td) s)
                = [EvEvaluate "master_agent" (path_join EVAL_DIR (snd td)) 1 r]
              /\ (call_outcome (result (run w (fst td) s)) = Passed <-> r = None))
         [(test_triage_basic, "triage_basic.test.json");
          (test_multi_event, "multi_event.test.json")]
  /\ path_join EVAL_DIR "triage_basic.test.json"
     <> path_join EVAL_DIR "multi_event.test.json".
Proof.
  split.
  - repeat first [apply List.Forall_nil | apply List.Forall_cons].
    all: unfold test_triage_basic, test_multi_event, evaluate; cbn.
    all: destruct (w_evaluate w s _ _ _) as [s' [e|]]; cbn.
    all: eexists; split; [reflexivity|].
    all: split; try reflexivity; try discriminate.
    all: destruct (is_skip e); discriminate.
  - unfold path_join.
    change (String.prefix "/" "triage_basic.test.json") with false.
    change (String.prefix "/" "multi_event.test.json") with false.
    cbn iota. destruct (String.eqb EVAL_DIR ""); [discriminate|].
    destruct (String.eqb _ "/"); intros H; apply append_cancel_l in H.
    + discriminate.
    + change ("/" ++ "triage_basic.test.json") with (String "/" "triage_basic.test.json") in H.
      discriminate.
Qed.

(** X15. Fresh tokens keep events apart: the payload of the acknowledgement
    scenario determines its event id, the payload of the incident scenario
    its source, and the source the six characters taken from the UUID; runs
    whose tokens differ submit different events. *)
Theorem distinct_tokens_distinct_events :
  (forall event_id event_id',
     critical_event_payload event_id = critical_event_payload event_id' ->
     event_id = event_id')
  /\ (forall source source',
        incident_payload source = incident_payload source' -> source = source')
  /\ (forall hex hex',
        incident_source hex = incident_source hex' ->
        String.substring 0 6 hex = String.substring 0 6 hex').
Proof.
  split; [|split].
  - intros a b Heq. unfold critical_event_payload in Heq. injection Heq as Heq.
    change (a ++ String ")" "" = b ++ String ")" "") in Heq.
    apply append_cancel_r in Heq. exact Heq.
  - intros a b Heq. unfold incident_payload in Heq. injection Heq as Heq _. exact Heq.
  - intros a b Heq. unfold incident_source in Heq.
    apply (append_cancel_l "k8s/pod/staging/api-eval-") in Heq. exact Heq.
Qed.


(** X16. The acknowledgement is checked strictly: on a 200 response whose
    body is a dict, [test_push_critical_event] raises [KeyError] when
    [queued] is missing, fails its assertion when [queued] is anything but
    the boolean [True], the number 1 and the string [true] included, and
    fails its assertion when [queued] is [True] and [id] is missing. *)
Theorem acknowledgement_is_checked_strictly (S : Type) (w : world S) (s s1 s2 : S)
    (c : client) (hex : string) (ack : response) (items : list (string * pyval)) :
  w_uuid w s = (s1, hex) ->
  w_http w s1 (submission c (critical_event_payload ("eval-" ++ String.substring 0 8 hex)))
    = (s2, Answered ack) ->
  status_code ack = 200 ->
  json_body ack = Some (PDict items) ->
  (dict_lookup "queued" items = None ->
   result (run w (test_push_critical_event c) s) = inr (Exn KeyError "'queued'"))
  /\ (forall v,
        dict_lookup "queued" items = Some v -> v <> PBool true ->
        result (run w (test_push_critical_event c) s) = inr (Exn AssertionError ""))
  /\ (dict_lookup "queued" items = Some (PBool true) ->
      dict_lookup "id" items = None ->
      result (run w (test_push_critical_event c) s) = inr (Exn AssertionError "")).
Proof.
  intros Huuid Hpost Hcode Hbody. apply Z.eqb_eq in Hcode.
  destruct ack as [code txt parsed]. cbn in Hcode, Hbody. subst parsed.
  unfold test_push_critical_event, client_post, send, submission in *.
  cbn. rewrite Huuid. cbn. rewrite Hpost. cbn. rewrite Hcode. cbn.
  split; [|split].
  - intros ->. reflexivity.
  - intros v -> Hv. cbn.
    destruct v as [|[|]| | | |]; try reflexivity. congruence.
  - intros -> Hid. cbn. rewrite Hid. reflexivity.
Qed.

End Harness.

(** ** The harness against the example services *)

(** The whole session against the example agent: every test passes. *)
Example session_against_agent :
  map snd (outcomes (evals_session ∅ "evals" status_line agent_world agent_idle))
    = [Passed; Passed; Passed; Passed; Passed; Passed; Passed; Passed].
Proof. vm_compute. reflexivity. Qed.



(** C3, as stated, fails: the drain scenario submits a well-formed event,
    gets a 503 with no [queued] and no [id] for it, and passes; the
    incident scenario passes on a 200 answer with no body at all. *)
Lemma submissions_pass_unacknowledged :
  exists rejected bare,
    well_formed_event drain_payload = true
    /\ trace (run (method_world unavailable stale_answer)
                  (test_queue_depth_decreases (http_client ∅)) tt)
         = [EvHttp (submission (http_client ∅) drain_payload) (Answered rejected);
            EvSleep 15;
            EvHttp (status_query (http_client ∅)) stale_answer]
    /\ status_code rejected = 503
    /\ acknowledged rejected = false
    /\ call_outcome (result (run (method_world unavailable stale_answer)
                                 (test_queue_depth_decreases (http_client ∅)) tt))
         = Passed
    /\ well_formed_event (incident_payload (incident_source fixed_uuid)) = true
    /\ hd_error (requests_of
                   (trace (run (method_world bare_ok stale_answer)
                               (test_push_critical_creates_incident (http_client ∅)) tt)))
         = Some (submission (http_client ∅) (incident_payload (incident_source fixed_uuid)))
    /\ bare_ok = Answered bare
    /\ acknowledged bare = false
    /\ call_outcome (result (run (method_world bare_ok stale_answer)
                                 (test_push_critical_creates_incident (http_client ∅)) tt))
         = Passed.
Proof. eexists _, _. vm_compute. repeat split. Qed.

(** C4, as stated, fails: against a service that validates [type] and
    [message] only, both validation scenarios pass, and an event without
    [source] is accepted with status 200. *)
Lemma missing_source_is_not_exercised :
  exists accepted,
    call_outcome (result (run source_blind_world
                              (test_missing_required_fields (http_client ∅)) tt)) = Passed
    /\ call_outcome (result (run source_blind_world
                                 (test_empty_message (http_client ∅)) tt)) = Passed
    /\ field ["source"] no_source_payload = None
    /\ well_formed_event no_source_payload = false
    /\ snd (w_http source_blind_world tt (submission (http_client ∅) no_source_payload))
         = Answered accepted
    /\ status_code accepted = 200
    /\ (400 <=? status_code accepted)%Z = false.
Proof. eexists. vm_compute. repeat split. Qed.

(** C5 at a refused connection. *)
Lemma refused_connection_skips_session :
  map snd (outcomes (evals_session ∅ "evals" status_line (constant_world refused) tt))
    = repeat (SkippedWith
                "Master agent not reachable at http://localhost:8080: All connection attempts failed")
             8
  /\ session_trace (evals_session ∅ "evals" status_line (constant_world refused) tt)
       = [EvHttp (health_probe ∅) refused].
Proof.
  destruct (unreachable_service_skips_session ∅ status_line unit (constant_world refused)
              tt (collected ∅ "evals") "All connection attempts failed")
    as (Hout & _ & Htrace & _).
  - discriminate.
  - reflexivity.
  - unfold evals_session. rewrite Hout, Htrace. split; reflexivity.
Defined.

(** C7 at a 503 answer. *)
Lemma unavailable_server_degrades :
  result (run (constant_world unavailable)
              (call_mcp_tool sketch "get_master_agent_status" PNone) tt) = inl PNone
  /\ result (run (constant_world unavailable) (list_tools sketch) tt) = inl PNone
  /\ trace (run (constant_world unavailable) (list_tools sketch) tt)
       = (list_banner ++ [EvHttp (mcp_request list_payload) unavailable;
                          EvPrint "✗ Error: 503";
                          EvPrint "Service Unavailable"])%list.
Proof.
  destruct (probe_degrades_on_error sketch sketch unit (constant_world unavailable) tt
              (Response 503 "Service Unavailable" None)
              "get_master_agent_status" PNone) as [Hcall Hlist].
  - cbn. lia.
  - destruct (Hcall eq_refl) as [Hr _]. destruct (Hlist eq_refl) as [Hr' Ht'].
    split; [exact Hr|]. split; [exact Hr'|]. exact Ht'.
Defined.

(** C9 at an address that cannot be parsed and at a 503 answer. *)
Lemma invalid_url_is_an_error :
  result (run (constant_world bad_url) (check_agent_health ∅ status_line) tt)
    = inr (Exn InvalidURL "Invalid non-printable ASCII character in URL")
  /\ map snd (outcomes (evals_session ∅ "evals" status_line (constant_world bad_url) tt))
       = repeat (Errored (Exn InvalidURL "Invalid non-printable ASCII character in URL")) 8
  /\ map snd (outcomes (evals_session ∅ "evals" status_line (constant_world unavailable) tt))
       = repeat (SkippedWith
                   "Master agent not reachable at http://localhost:8080: Server error 503 for url http://localhost:8080/v0/agent/status")
                8.
Proof.
  destruct (health_gate_exception_filter ∅ status_line unit (constant_world bad_url) tt
              (collected ∅ "evals"))
    as (_ & _ & _ & _ & _ & _ & Hraised & _).
  destruct (Hraised (Exn InvalidURL "Invalid non-printable ASCII character in URL") eq_refl)
    as [_ Hother].
  destruct (Hother eq_refl) as [Hgate Hsession].
  destruct (health_gate_exception_filter ∅ status_line unit (constant_world unavailable) tt
              (collected ∅ "evals"))
    as (_ & _ & _ & _ & _ & Hanswered & _).
  destruct (Hanswered (Response 503 "Service Unavailable" None) eq_refl) as [Hbad _].
  destruct (Hbad eq_refl) as (_ & _ & Hskipped).
  split; [exact Hgate|]. unfold evals_session. split.
  - rewrite Hsession; [reflexivity|discriminate].
  - rewrite Hskipped. reflexivity.
Defined.

(** C10 at a listing of three tools, two of them displayed. *)
Lemma three_tools_two_lines :
  result (run (constant_world tools_answer) (list_tools sketch) tt) = inl three_tools
  /\ trace (run (constant_world tools_answer) (list_tools sketch) tt)
       = (list_banner
          ++ [EvHttp (mcp_request list_payload) tools_answer;
              EvPrint "Found 3 tools:";
              EvPrint "  - get_master_agent_status: Agent status";
              EvPrint "  - emit_event: No description"])%list.
Proof.
  destruct (list_tools_filter_is_display_only sketch unit (constant_world tools_answer) tt
              (Response 200 "" (Some three_tools)) three_tools eq_refl eq_refl eq_refl)
    as (_ & Hshown & _).
  destruct (Hshown _ eq_refl eq_refl) as [Hr Ht].
  split; [exact Hr|]. rewrite Ht. reflexivity.
Defined.

(** X2 at the example UUID. *)
Lemma example_incident_message :
  field ["message"] (incident_payload (incident_source fixed_uuid))
    = Some (PStr "Pod api-eval-3f2b8c in staging is OOMKilled").
Proof.
  destruct (incident_message_names_pod fixed_uuid eq_refl) as (_ & Hmsg & _).
  exact Hmsg.
Defined.

(** X3 at a refused connection. *)
Lemma refused_connection_fails_each_scenario :
  Forall (fun test : client -> prog unit =>
            result (run (constant_world refused) (test (http_client ∅)) tt)
              = inr (Exn ConnectError "All connection attempts failed")
            /\ n_requests (trace (run (constant_world refused) (test (http_client ∅)) tt))
                 = 1%nat
            /\ sleeps (trace (run (constant_world refused) (test (http_client ∅)) tt)) = [])
         http_scenarios.
Proof.
  apply (scenarios_do_not_retry unit (constant_world refused)
           (Exn ConnectError "All connection attempts failed") (http_client ∅)).
  intros s rq. reflexivity.
Defined.

(** X4 at a 503 answer. *)
Lemma unavailable_service_fails_fast :
  trace (run (constant_world unavailable) (test_push_event_updates_status (http_client ∅)) tt)
    = [EvHttp (submission (http_client ∅) node_pressure_payload) unavailable]
  /\ sleeps (trace (run (constant_world unavailable)
                        (test_push_critical_creates_incident (http_client ∅)) tt)) = [].
Proof.
  destruct (unacknowledged_submission_fails_fast unit (constant_world unavailable) tt
              (http_client ∅) (Response 503 "Service Unavailable" None))
    as [Hstatus Hincident].
  - cbn. lia.
  - destruct (Hstatus eq_refl) as [_ Ht]. destruct (Hincident eq_refl) as [_ Ht'].
    split; [exact Ht|]. rewrite Ht'. reflexivity.
Defined.

(** X6 at snapshots without a list of incidents. *)
Lemma unlisted_incidents_fail_the_assertion :
  result (run (constant_world unlisted_incidents)
              (test_push_critical_creates_incident (http_client ∅)) tt)
    = inr (Exn AssertionError "")
  /\ result (run (constant_world null_incidents)
                 (test_push_critical_creates_incident (http_client ∅)) tt)
       = inr (Exn TypeError "object of type 'NoneType' has no len()").
Proof.
  split.
  - eapply (incident_snapshot_errors unit (constant_world unlisted_incidents) tt tt tt tt
              (http_client ∅) fixed_uuid);
      [reflexivity | reflexivity | reflexivity | reflexivity | reflexivity | reflexivity].
  - eapply (incident_snapshot_errors unit (constant_world null_incidents) tt tt tt tt
              (http_client ∅) fixed_uuid);
      [reflexivity | reflexivity | reflexivity | reflexivity | reflexivity | reflexivity].
Defined.

(** X7 at the example agent. *)
Lemma agent_session_starts_with_the_probe :
  hd_error (session_trace (evals_session ∅ "evals" status_line agent_world agent_idle))
    = Some (EvHttp (health_probe ∅)
                   (Answered (Response 200 "" (Some (agent_snapshot agent_idle))))).
Proof.
  destruct (reachable_service_runs_session ∅ status_line agent_state agent_world agent_idle
              (collected ∅ "evals") (Response 200 "" (Some (agent_snapshot agent_idle)))
              eq_refl eq_refl) as (_ & _ & Htrace).
  unfold evals_session. rewrite Htrace; [reflexivity | discriminate].
Defined.

(** X8 at the listing, asked for as a tool call. *)
Lemma example_tool_call_returns :
  result (run (constant_world tools_answer)
              (call_mcp_tool sketch "get_master_agent_status" PNone) tt)
    = inl three_tools.
Proof.
  destruct (call_mcp_tool_returns_result sketch unit (constant_world tools_answer) tt
              (Response 200 "" (Some three_tools)) three_tools
              "get_master_agent_status" PNone eq_refl eq_refl eq_refl) as [Hr _].
  exact Hr.
Defined.

(** X9 at a page that is not JSON. *)
Lemma html_page_raises :
  trace (run (constant_world html_page) (list_tools sketch) tt)
    = (list_banner ++ [EvHttp (mcp_request list_payload) html_page])%list.
Proof.
  destruct (probe_raises_on_undecodable_body sketch sketch unit (constant_world html_page) tt
              (Response 200 "<html>gateway</html>" None) "emit_event" PNone
              eq_refl eq_refl) as [_ Hlist].
  destruct (Hlist eq_refl) as [_ Ht]. exact Ht.
Defined.

(** X10 at a refused connection. *)
Lemma refused_connection_halts_the_script :
  result (run (constant_world refused) (main sketch sketch) tt)
    = inr (Exn ConnectError "All connection attempts failed")
  /\ n_requests (trace (run (constant_world refused) (main sketch sketch) tt)) = 1%nat.
Proof.
  destruct (probe_halts_when_unreachable sketch sketch unit (constant_world refused) tt
              (Exn ConnectError "All connection attempts failed") "emit_event" PNone)
    as (_ & _ & Hr & Ht).
  - intros s rq. reflexivity.
  - split; [exact Hr|]. rewrite Ht. reflexivity.
Defined.

(** X11 at a server that answers 503 throughout. *)
Lemma unavailable_server_sees_the_whole_script :
  result (run (constant_world unavailable) (main sketch sketch) tt) = inl tt
  /\ n_requests (trace (run (constant_world unavailable) (main sketch sketch) tt)) = 5%nat
  /\ sleeps (trace (run (constant_world unavailable) (main sketch sketch) tt)) = [3].
Proof.
  destruct (main_runs_through_rejections sketch sketch unit (constant_world unavailable) tt)
    as (Hr & _ & _).
  - intros s rq. exists (Response 503 "Service Unavailable" None).
    split; [reflexivity | cbn; lia].
  - split; [exact Hr|]. split; reflexivity.
Defined.

(** X12 at a JSON-RPC error reply. *)
Lemma rpc_error_is_returned :
  result (run (constant_world rpc_error_answer) (list_tools sketch) tt) = inl rpc_error
  /\ trace (run (constant_world rpc_error_answer) (list_tools sketch) tt)
       = (list_banner ++ [EvHttp (mcp_request list_payload) rpc_error_answer])%list.
Proof.
  apply (list_tools_without_listing sketch unit (constant_world rpc_error_answer) tt
           (Response 200 "" (Some rpc_error)) _ eq_refl eq_refl eq_refl).
  left. reflexivity.
Defined.

(** X13 at a listing whose second tool has no name. *)
Lemma nameless_tool_raises :
  result (run (constant_world nameless_answer) (list_tools sketch) tt)
    = inr (Exn KeyError "'name'")
  /\ trace (run (constant_world nameless_answer) (list_tools sketch) tt)
       = (list_banner
          ++ [EvHttp (mcp_request list_payload) nameless_answer;
              EvPrint "Found 3 tools:";
              EvPrint "  - get_master_agent_status: Agent status"])%list.
Proof.
  destruct (list_tools_raises_on_nameless_tool sketch unit (constant_world nameless_answer) tt
              (Response 200 "" (Some nameless_listing)) nameless_listing
              [tool "get_master_agent_status" (Some "Agent status")]
              [("description", PStr "anonymous")]
              [tool "emit_event" None]
              eq_refl eq_refl eq_refl eq_refl eq_refl eq_refl) as [Hr Ht].
  split; [exact Hr|]. rewrite Ht. reflexivity.
Defined.

(** X16 at an acknowledgement whose [queued] is the number 1. *)
Lemma queued_as_number_fails :
  result (run (constant_world queued_as_number)
              (test_push_critical_event (http_client ∅)) tt)
    = inr (Exn AssertionError "").
Proof.
  destruct (acknowledgement_is_checked_strictly unit (constant_world queued_as_number)
              tt tt tt (http_client ∅) fixed_uuid
              (Response 200 "" (Some (PDict [("queued", PInt 1); ("id", PStr "evt")])))
              [("queued", PInt 1); ("id", PStr "evt")]
              eq_refl eq_refl eq_refl eq_refl) as (_ & Hqueued & _).
  apply (Hqueued (PInt 1)); [reflexivity | discriminate].
Defined.
